(** * FruitVision backend: request orchestration and streaming layer

    A shallow embedding of [app.py]: the startup hook, the three HTTP
    handlers ([/detect], [/segment], [/process-video]) and the WebSocket
    receive loop.  Python's implicit state (the global engine handles, the
    files on disk, the connection manager, the socket) is threaded
    explicitly through a state-and-exception monad; the engines, the media
    codec and the socket are section variables, since [app.py] only calls
    them. *)

From stdpp Require Import gmap strings list pretty.
From Stdlib Require Import ZArith Lia Sorted.
From Stdlib.Strings Require Import Ascii Byte.

(* ================================================================== *)
(** ** Python values used by the handlers *)
(* ================================================================== *)

(** Exceptions.  [HTTPException] is the one the handlers raise on purpose;
    every other exception class is an [Error] carrying its class name and
    its message.  Both are subclasses of Python's [Exception], so an
    [except Exception] clause catches either. *)
Inductive Exception :=
| HTTPException (status_code : Z) (detail : string)
| Error (cls : string) (msg : string).

(** [str(e)]. *)
Definition str (e : Exception) : string :=
  match e with
  | HTTPException c d => pretty c +:+ ": " +:+ d
  | Error _ msg => msg
  end.

Inductive Outcome (A : Type) :=
| Return (a : A)
| Raise (e : Exception).
Arguments Return {A} a.
Arguments Raise {A} e.

(** Exceptions that derive from [BaseException] only.  An
    [except Exception] clause does not catch them.  They reach the
    application where a coroutine is suspended on the socket: there the
    event loop may cancel the task or tear the process down. *)
Inductive Interrupt :=
| CancelledError
| KeyboardInterrupt
| SystemExit.

(** How a coroutine ends: like a plain call, with a value or an exception
    of class [Exception], or by an interrupt.  A plain outcome is read as
    a completion wherever one is expected. *)
Inductive Completion (A : Type) :=
| Done (o : Outcome A)
| Interrupted (i : Interrupt).
Arguments Done {A} o.
Arguments Interrupted {A} i.
Coercion Done : Outcome >-> Completion.

(** How a bounded run of the receive loop stands: [None] while the loop is
    still going, [Some e] once an exception [e] has left its body, or torn
    down by an interrupt.  An optional exception is read as such a status
    wherever one is expected. *)
Inductive LoopStatus :=
| Status (exit : option Exception)
| Torn (i : Interrupt).
#[warning="-uniform-inheritance"]
Coercion Status : option >-> LoopStatus.

(** The components of a pair are read against the type expected of the
    pair, so that [(Return a, w)] is a completion paired with a state
    where one is expected. *)
#[local] Arguments pair {A B}%_type_scope & a b.

(** A Python [float]: a finite double is [m * 2^e] for integers [m], [e];
    the two infinities and NaN are kept apart because [int()] rejects
    them. *)
Inductive float :=
| Finite (m e : Z)
| Infinite (negative : bool)
| NaN.

(** [int(x)] on a float: truncation toward zero, or an exception. *)
Definition int (x : float) : Outcome Z :=
  match x with
  | Finite m e =>
      if (0 <=? e)%Z then Return (m * 2 ^ e)%Z
      else Return (Z.quot m (2 ^ (- e)))%Z
  | Infinite _ =>
      Raise (Error "OverflowError" "cannot convert float infinity to integer")
  | NaN => Raise (Error "ValueError" "cannot convert float NaN to integer")
  end.

(** What "the integer truncation of [x]" means, stated without reference
    to [int]: the integer [z] lies on the same side of zero as [x] and
    [|z| <= |x| < |z| + 1].  Scaled by [2^(-e)] when the exponent is
    negative so that everything stays in [Z]. *)
Definition truncation_of (x : float) (z : Z) : Prop :=
  match x with
  | Finite m e =>
      if (0 <=? e)%Z then z = (m * 2 ^ e)%Z
      else (Z.abs z * 2 ^ (- e) <= Z.abs m < (Z.abs z + 1) * 2 ^ (- e))%Z
           /\ (0 <= z * m)%Z
  | _ => False
  end.

(** JSON documents as [receive_json] delivers them: objects are Python
    dicts, hence finite maps. *)
Local Unset Elimination Schemes.
Inductive Json :=
| JNull
| JBool (b : bool)
| JNum (z : Z)
| JStr (s : string)
| JArr (l : list Json)
| JObj (o : gmap string Json).
Local Set Elimination Schemes.

(** ['...'] as [repr] prints a short key. *)
Definition repr_key (k : string) : string := "'" +:+ k +:+ "'".

(** [data[key]] for a string key. *)
Definition getitem (data : Json) (key : string) : Outcome Json :=
  match data with
  | JObj o =>
      match o !! key with
      | Some v => Return v
      | None => Raise (Error "KeyError" (repr_key key))
      end
  | JArr _ =>
      Raise (Error "TypeError" "list indices must be integers or slices, not str")
  | JStr _ =>
      Raise (Error "TypeError" "string indices must be integers")
  | _ => Raise (Error "TypeError" "object is not subscriptable")
  end.

(** [v == "frame"]: a JSON value equals a Python string only when it is
    that string. *)
Definition eq_str (v : Json) (s : string) : bool :=
  match v with
  | JStr t => String.eqb t s
  | _ => false
  end.

(** *** [bytes.fromhex] *)

Definition hex_value (c : ascii) : option N :=
  let n := N_of_ascii c in
  if (48 <=? n)%N && (n <=? 57)%N then Some (n - 48)%N
  else if (97 <=? n)%N && (n <=? 102)%N then Some (n - 87)%N
  else if (65 <=? n)%N && (n <=? 70)%N then Some (n - 55)%N
  else None.

(** ASCII whitespace, skipped between two bytes. *)
Definition isspace (c : ascii) : bool :=
  let n := N_of_ascii c in
  (n =? 32)%N || ((9 <=? n)%N && (n <=? 13)%N).

Fixpoint fromhex_chars (l : list ascii) : option (list byte) :=
  match l with
  | [] => Some []
  | c :: rest =>
      if isspace c then fromhex_chars rest
      else
        match rest with
        | [] => None
        | c' :: rest' =>
            match hex_value c, hex_value c' with
            | Some hi, Some lo =>
                match Byte.of_N (16 * hi + lo), fromhex_chars rest' with
                | Some b, Some bs => Some (b :: bs)
                | _, _ => None
                end
            | _, _ => None
            end
        end
  end.

Definition fromhex (v : Json) : Outcome (list byte) :=
  match v with
  | JStr s =>
      match fromhex_chars (String.list_ascii_of_string s) with
      | Some bs => Return bs
      | None =>
          Raise (Error "ValueError" "non-hexadecimal number found in fromhex() arg")
      end
  | _ => Raise (Error "TypeError" "fromhex() argument must be str")
  end.

(** An uploaded file: the client-supplied name (which may be missing) and
    the bytes that [await file.read()] returns.  The upload has arrived in
    full when a handler is called; reading it back is taken to succeed. *)
Record UploadFile := {
  filename : option string;
  contents : list byte
}.

(** [f"{file.filename}"]: a missing name is rendered as [None]. *)
Definition format_filename (name : option string) : string :=
  match name with
  | Some s => s
  | None => "None"
  end.

Definition temp_path_of (file : UploadFile) : string :=
  "temp_" +:+ format_filename (filename file).

Definition output_path_of (file : UploadFile) : string :=
  "output_" +:+ format_filename (filename file).

(* ================================================================== *)
(** ** The state-and-exception monad *)
(* ================================================================== *)

Definition M (W A : Type) : Type := W -> Completion A * W.

Definition ret {W A} (a : A) : M W A := fun w => (Return a, w).

Definition raise {W A} (e : Exception) : M W A := fun w => (Raise e, w).

Definition bind {W A B} (c : M W A) (k : A -> M W B) : M W B :=
  fun w =>
    match c w with
    | (Done (Return a), w') => k a w'
    | (Done (Raise e), w') => (Raise e, w')
    | (Interrupted i, w') => (Interrupted i, w')
    end.

(** [try: body / except Exception as e: handler e].  The clause catches
    what derives from [Exception]; an interrupt passes through it. *)
Definition try_except {W A} (body : M W A) (handler : Exception -> M W A)
  : M W A :=
  fun w =>
    match body w with
    | (Done (Return a), w') => (Return a, w')
    | (Done (Raise e), w') => handler e w'
    | (Interrupted i, w') => (Interrupted i, w')
    end.

Definition gets {W A} (f : W -> A) : M W A := fun w => (Return (f w), w).

Definition modify {W} (f : W -> W) : M W unit := fun w => (Return tt, f w).

(** A plain call that may raise. *)
Definition lift {W A} (o : Outcome A) : M W A := fun w => (o, w).

Notation "'let*' x ':=' c 'in' k" := (bind c (fun x => k))
  (at level 10, x pattern, c at level 100, k at level 200).
Notation "c ';;' k" := (bind c (fun _ => k))
  (at level 100, k at level 200, right associativity).

(** How storing an upload at a path fails, when it does: the exception
    raised, and what is left at the path.  [None]: [open] itself failed and
    nothing was created or changed.  [Some n]: [open] created or truncated
    the file, and it holds the first [n] bytes of the upload, those
    written before reading or writing failed. *)
Class Storage := {
  write_failure : string -> list byte -> Exception * option nat
}.

(* ================================================================== *)
(** ** The application *)
(* ================================================================== *)

Section App.

(** Opaque collaborators ([detector.py], [segmenter.py], OpenCV, the
    socket).  [D] and [S] are the engine objects with whatever internal
    state they carry; [Conn] is the state of the WebSocket transport. *)
Context {Frame Detection Mask D S Conn : Type}.

(** Engine results, as the handlers consume them through
    [results["detections"]], [results["processing_time"]],
    [results["masks"]] and [results["num_objects"]]; the engines
    themselves ([detector.py], [segmenter.py]) are parameters below. *)
Record DetectResult := {
  detections : list Detection;
  processing_time : float
}.

Record SegmentResult := {
  masks : list Mask;
  num_objects : Z;
  seg_processing_time : float
}.

(** Modelled from the spec: [models.py] is not part of the sources; the
    three response models have the fields listed for the external
    interfaces ([DetectionResponse], [SegmentationResponse],
    [VideoProcessingResponse]). *)
Record DetectionResponse := {
  dr_success : bool;
  dr_detections : list Detection;
  dr_image_shape : Z * Z;
  dr_processing_time_ms : float
}.

Record SegmentationResponse := {
  sr_success : bool;
  sr_masks : list Mask;
  sr_num_objects : Z;
  sr_processing_time_ms : float
}.

Record VideoProcessingResponse := {
  success : bool;
  output_file : string;
  total_frames : Z;
  total_detections : Z;
  fps : Z;
  resolution : Z * Z
}.

(** The outbound WebSocket message
    [{"type": "detection_results", "detections": ..,
      "processing_time_ms": ..}]. *)
Record StreamResponse := {
  type : string;
  ws_detections : list Detection;
  ws_processing_time_ms : float
}.

(** [cv2.VideoCapture] after opening: whether it opened, the three
    properties [cap.get] is asked for, and the frames that successive
    [cap.read()] calls will deliver with [ret = True] (the first
    [ret = False] ends the handler's loop, so what follows it is never
    observed). *)
Record VideoCapture := {
  isOpened : bool;
  CAP_PROP_FPS : float;
  CAP_PROP_FRAME_WIDTH : float;
  CAP_PROP_FRAME_HEIGHT : float;
  frames : list Frame
}.

(** A capture on a path that does not exist. *)
Definition closed_capture : VideoCapture :=
  {| isOpened := false;
     CAP_PROP_FPS := Finite 0 0;
     CAP_PROP_FRAME_WIDTH := Finite 0 0;
     CAP_PROP_FRAME_HEIGHT := Finite 0 0;
     frames := [] |}.

(** Observable interactions, in the order they happen. *)
Inductive Event :=
| EvRecv (data : Json)
| EvDetect (image : option Frame) (result : Outcome DetectResult)
| EvSend (message : StreamResponse)
| EvVideoWriter (path : string) (rate : Z) (size : Z * Z)
| EvClose (ws : nat).

(** The process state the handlers read and write. *)
Record World := {
  detector : option D;              (* global [detector] *)
  segmenter : option S;             (* global [segmenter] *)
  disk : gmap string (list byte);   (* files in the working directory *)
  active_connections : gset nat;    (* [manager]'s sessions *)
  conn : Conn;                      (* the socket of the session at hand *)
  trace : list Event
}.

Definition set_detector (d : option D) (w : World) : World :=
  {| detector := d; segmenter := segmenter w; disk := disk w;
     active_connections := active_connections w; conn := conn w;
     trace := trace w |}.

Definition set_segmenter (s : option S) (w : World) : World :=
  {| detector := detector w; segmenter := s; disk := disk w;
     active_connections := active_connections w; conn := conn w;
     trace := trace w |}.

Definition set_disk (f : gmap string (list byte)) (w : World) : World :=
  {| detector := detector w; segmenter := segmenter w; disk := f;
     active_connections := active_connections w; conn := conn w;
     trace := trace w |}.

Definition set_active (a : gset nat) (w : World) : World :=
  {| detector := detector w; segmenter := segmenter w; disk := disk w;
     active_connections := a; conn := conn w; trace := trace w |}.

Definition set_conn (c : Conn) (w : World) : World :=
  {| detector := detector w; segmenter := segmenter w; disk := disk w;
     active_connections := active_connections w; conn := c;
     trace := trace w |}.

Definition log (ev : Event) (w : World) : World :=
  {| detector := detector w; segmenter := segmenter w; disk := disk w;
     active_connections := active_connections w; conn := conn w;
     trace := trace w ++ [ev] |}.

(** *** Collaborators *)

(** [YOLODetector(model_name=..)] and [SAM3DSegmenter()]. *)
Variable YOLODetector : string -> Outcome D.
Variable SAM3DSegmenter : Outcome S.

(** The [detect] and [segment] methods: a result or an exception, and the
    engine object afterwards.  The argument is what [cv2.imdecode] or
    [cap.read] produced, [None] included. *)
Variable detect : D -> option Frame -> Outcome DetectResult * D.
Variable segment : S -> option Frame -> Outcome SegmentResult * S.

(** [cv2.imdecode(np.frombuffer(contents, np.uint8), cv2.IMREAD_COLOR)]:
    an image, [None] when the bytes are no image, or a [cv2.error] (an
    empty buffer). *)
Variable imdecode : list byte -> Outcome (option Frame).

(** [image.shape] of a decoded colour image: rows, columns. *)
Variable shape : Frame -> Z * Z.

(** What OpenCV makes of a file's bytes when it opens it as a video. *)
Variable demux : list byte -> VideoCapture.

(** Whether the upload can be stored at a path: the operating system lets
    the process create or truncate it and the whole upload gets written.
    When it cannot, [write_failure] says how the attempt ends. *)
Variable writable : string -> bool.
Context {storage : Storage}.

(** What [cv2.VideoWriter(path, fourcc, fps, size)] leaves on disk: the
    initial bytes of the container, or nothing when it fails to open. *)
Variable mux : string -> Z -> Z * Z -> option (list byte).

(** [ObjectCounter()]. *)
Variable ObjectCounter : Outcome unit.

(** The socket: handshake, one inbound JSON message, one outbound
    message. *)
Variable ws_accept : Conn -> Completion unit * Conn.
Variable ws_receive_json : Conn -> Completion Json * Conn.
Variable ws_send_json : StreamResponse -> Conn -> Completion unit * Conn.

Local Abbreviation Handler := (M World).

(** *** Engine calls through the global handles *)

(** [detector.detect(image)]. *)
Definition detector_detect (image : option Frame) : Handler DetectResult :=
  fun w =>
    match detector w with
    | None =>
        (Raise (Error "AttributeError"
                  "'NoneType' object has no attribute 'detect'"), w)
    | Some d =>
        let '(r, d') := detect d image in
        (r, log (EvDetect image r) (set_detector (Some d') w))
    end.

(** [segmenter.segment(image)]. *)
Definition segmenter_segment (image : option Frame) : Handler SegmentResult :=
  fun w =>
    match segmenter w with
    | None =>
        (Raise (Error "AttributeError"
                  "'NoneType' object has no attribute 'segment'"), w)
    | Some s =>
        let '(r, s') := segment s image in
        (r, set_segmenter (Some s') w)
    end.

(** [image.shape]. *)
Definition image_shape (image : option Frame) : Outcome (Z * Z) :=
  match image with
  | Some f => Return (shape f)
  | None =>
      Raise (Error "AttributeError"
               "'NoneType' object has no attribute 'shape'")
  end.

(** *** Startup and health *)

Definition startup_event : Handler unit :=
  let* d := lift (YOLODetector "yolo11n") in
  modify (set_detector (Some d)) ;;
  let* s := lift SAM3DSegmenter in
  modify (set_segmenter (Some s)) ;;
  ret tt.

Record Health := {
  status : string;
  detector_loaded : bool;
  segmenter_loaded : bool
}.

Definition health_check : Handler Health :=
  let* d := gets detector in
  let* s := gets segmenter in
  ret {| status := "healthy";
         detector_loaded := bool_decide (is_Some d);
         segmenter_loaded := bool_decide (is_Some s) |}.

(** *** Single-image handlers *)

Definition detect_fruits (file : UploadFile) : Handler DetectionResponse :=
  let* d := gets detector in
  match d with
  | None => raise (HTTPException 503 "Detector not loaded")
  | Some _ =>
      try_except
        (let* image := lift (imdecode (contents file)) in
         let* results := detector_detect image in
         let* sh := lift (image_shape image) in
         ret {| dr_success := true;
                dr_detections := detections results;
                dr_image_shape := (snd sh, fst sh);
                dr_processing_time_ms := processing_time results |})
        (fun e => raise (HTTPException 400 (str e)))
  end.

Definition segment_fruits (file : UploadFile) : Handler SegmentationResponse :=
  let* s := gets segmenter in
  match s with
  | None => raise (HTTPException 503 "Segmenter not loaded")
  | Some _ =>
      try_except
        (let* image := lift (imdecode (contents file)) in
         let* results := segmenter_segment image in
         ret {| sr_success := true;
                sr_masks := masks results;
                sr_num_objects := num_objects results;
                sr_processing_time_ms := seg_processing_time results |})
        (fun e => raise (HTTPException 400 (str e)))
  end.

(** *** Files and the video codec *)

(** [with open(path, "wb") as f: f.write(data)].  [open] creates or
    truncates the file before a byte is written, so a failure can leave an
    empty or partial file behind; which exception is raised and what is
    left at the path is the storage's to say. *)
Definition open_wb (path : string) (data : list byte) : Handler unit :=
  fun w =>
    if writable path
    then (Return tt, set_disk (<[path := data]> (disk w)) w)
    else
      match write_failure path data with
      | (e, None) => (Raise e, w)
      | (e, Some n) =>
          (Raise e, set_disk (<[path := take n data]> (disk w)) w)
      end.

(** [cv2.VideoCapture(path)]: never raises; a missing file gives a
    capture that is not opened. *)
Definition cv2_VideoCapture (path : string) : Handler VideoCapture :=
  fun w =>
    match disk w !! path with
    | Some data => (Return (demux data), w)
    | None => (Return closed_capture, w)
    end.

(** [cv2.VideoWriter(path, fourcc, fps, (width, height))]. *)
Definition cv2_VideoWriter (path : string) (rate : Z) (size : Z * Z)
  : Handler unit :=
  fun w =>
    let w' := log (EvVideoWriter path rate size) w in
    match mux path rate size with
    | Some data => (Return tt, set_disk (<[path := data]> (disk w')) w')
    | None => (Return tt, w')
    end.

(** [os.remove(path)]. *)
Definition os_remove (path : string) : Handler unit :=
  fun w =>
    match disk w !! path with
    | Some _ => (Return tt, set_disk (delete path (disk w)) w)
    | None =>
        (Raise (Error "FileNotFoundError" "No such file or directory"), w)
    end.

(** *** Video processing *)

(** The [while cap.isOpened()] loop once the capture is known to be open:
    [pending] are the frames the capture still holds, [frame_count] and
    [detections_list] the two accumulators.  An empty [pending] is the
    [ret = False] that breaks the loop. *)
Fixpoint video_loop (pending : list Frame) (frame_count : Z)
    (detections_list : list Detection) : Handler (Z * list Detection) :=
  match pending with
  | [] => ret (frame_count, detections_list)
  | frame :: rest =>
      let* results := detector_detect (Some frame) in
      video_loop rest (frame_count + 1)%Z
        (detections_list ++ detections results)
  end.

Definition process_video (file : UploadFile) (enable_segmentation : bool)
  : Handler VideoProcessingResponse :=
  let* d := gets detector in
  match d with
  | None => raise (HTTPException 503 "Detector not loaded")
  | Some _ =>
      try_except
        (let temp_path := temp_path_of file in
         open_wb temp_path (contents file) ;;
         let output_path := output_path_of file in
         let* cap := cv2_VideoCapture temp_path in
         let* rate := lift (int (CAP_PROP_FPS cap)) in
         let* width := lift (int (CAP_PROP_FRAME_WIDTH cap)) in
         let* height := lift (int (CAP_PROP_FRAME_HEIGHT cap)) in
         cv2_VideoWriter output_path rate (width, height) ;;
         lift ObjectCounter ;;
         let* counted :=
           (if isOpened cap then video_loop (frames cap) 0%Z []
            else ret (0%Z, [])) in
         let frame_count := fst counted in
         let detections_list := snd counted in
         os_remove temp_path ;;
         ret {| success := true;
                output_file := output_path;
                total_frames := frame_count;
                total_detections := Z.of_nat (length detections_list);
                fps := rate;
                resolution := (width, height) |})
        (fun e => raise (HTTPException 400 (str e)))
  end.

(** The process state in which the frame loop of [process_video] starts:
    the upload is on disk and the writer has been opened. *)
Definition loop_entry (file : UploadFile) (rate : Z) (size : Z * Z)
    (w : World) : World :=
  snd (cv2_VideoWriter (output_path_of file) rate size
         (set_disk (<[temp_path_of file := contents file]> (disk w)) w)).

(** *** Streaming *)

(** [await websocket.receive_json()]. *)
Definition receive_json : Handler Json :=
  fun w =>
    let '(r, c) := ws_receive_json (conn w) in
    match r with
    | Done (Return data) => (r, log (EvRecv data) (set_conn c w))
    | _ => (r, set_conn c w)
    end.

(** [await websocket.send_json(message)]. *)
Definition send_json (message : StreamResponse) : Handler unit :=
  fun w =>
    let '(r, c) := ws_send_json message (conn w) in
    match r with
    | Done (Return _) => (r, log (EvSend message) (set_conn c w))
    | _ => (r, set_conn c w)
    end.

(** Modelled from the spec: [websocket_manager.py] is not part of the
    sources.  [connect] accepts the handshake and, when that succeeds,
    registers the session in the active set; [disconnect] deregisters the
    session and closes the underlying connection. *)
Definition manager_connect (ws : nat) : Handler unit :=
  fun w =>
    let '(r, c) := ws_accept (conn w) in
    match r with
    | Done (Return _) =>
        (Return tt,
         set_active ({[ws]} ∪ active_connections w) (set_conn c w))
    | Done (Raise e) => (Raise e, set_conn c w)
    | Interrupted i => (Interrupted i, set_conn c w)
    end.

(** Modelled from the spec: [manager.disconnect] of the absent
    [websocket_manager.py]; it deregisters the session and closes the
    underlying connection, and does not fail. *)
Definition manager_disconnect (ws : nat) : Handler unit :=
  modify (fun w =>
            log (EvClose ws)
              (set_active (active_connections w ∖ {[ws]}) w)).

(** The message sent back for one detector result. *)
Definition response_of (results : DetectResult) : StreamResponse :=
  {| type := "detection_results";
     ws_detections := detections results;
     ws_processing_time_ms := processing_time results |}.

(** One turn of the [while True] body. *)
Definition ws_iteration : Handler unit :=
  let* data := receive_json in
  let* ty := lift (getitem data "type") in
  if eq_str ty "frame" then
    let* frame_data := lift (getitem data "frame") in
    let* raw := lift (fromhex frame_data) in
    let* frame := lift (imdecode raw) in
    let* results := detector_detect frame in
    send_json (response_of results)
  else ret tt.

(** [while True: ...] run for at most [fuel] turns: [None] when the loop
    is still going after them, [Some e] when a turn raised [e], [Torn i]
    when a turn was interrupted; a turn that does not return is the only
    way out of the loop. *)
Fixpoint receive_loop (fuel : nat) : World -> LoopStatus * World :=
  fun w =>
    match fuel with
    | O => (None, w)
    | Datatypes.S n =>
        match ws_iteration w with
        | (Done (Return _), w') => receive_loop n w'
        | (Done (Raise e), w') => (Some e, w')
        | (Interrupted i, w') => (Torn i, w')
        end
    end.

Inductive Session := Open | Closed.

(** The endpoint, observed after at most [fuel] turns of its loop:
    [Open] while the loop is running, [Closed] once the handler has
    returned through its [except Exception] clause.  An interrupt is not
    caught by that clause and leaves the endpoint as it left the loop. *)
Definition websocket_endpoint (fuel : nat) (ws : nat) : Handler Session :=
  manager_connect ws ;;
  fun w =>
    match receive_loop fuel w with
    | (Status None, w') => (Return Open, w')
    | (Status (Some e), w') => (manager_disconnect ws ;; ret Closed) w'
    | (Torn i, w') => (Interrupted i, w')
    end.

(** *** Shutdown *)

(** The [cleanup] methods of the two engines: an exception or not, and the
    engine object afterwards. *)
Variable detector_cleanup : D -> Outcome unit * D.
Variable segmenter_cleanup : S -> Outcome unit * S.

(** [detector.cleanup()] on the global handle [d]. *)
Definition call_detector_cleanup (d : D) : Handler unit :=
  fun w =>
    let '(r, d') := detector_cleanup d in (r, set_detector (Some d') w).

(** [segmenter.cleanup()] on the global handle [s]. *)
Definition call_segmenter_cleanup (s : S) : Handler unit :=
  fun w =>
    let '(r, s') := segmenter_cleanup s in (r, set_segmenter (Some s') w).

Definition shutdown_event : Handler unit :=
  let* d := gets detector in
  match d with
  | Some d0 => call_detector_cleanup d0
  | None => ret tt
  end ;;
  let* s := gets segmenter in
  match s with
  | Some s0 => call_segmenter_cleanup s0
  | None => ret tt
  end.

End App.

(* ================================================================== *)
(** ** Vocabulary of the properties *)
(* ================================================================== *)

Section Vocabulary.

Context {Frame Detection : Type}.

(** The frames a capture delivers to the handler's loop: none when it did
    not open. *)
Definition frames_read (cap : @VideoCapture Frame) : list Frame :=
  if isOpened cap then frames cap else [].

(** What the Detector returns when it is fed the frames one after the
    other, its own state carried along; the list stops at the first call
    that raises. *)
Fixpoint detector_returns {D : Type}
    (detect : D -> option Frame -> Outcome (@DetectResult Detection) * D)
    (d : D) (pending : list Frame) : list (@DetectResult Detection) :=
  match pending with
  | [] => []
  | frame :: rest =>
      match detect d (Some frame) with
      | (Return results, d') => results :: detector_returns detect d' rest
      | (Raise _, _) => []
      end
  end.

(** The detections of a run of frames, each tagged with the index of the
    frame it was found in, frame [i] before frame [i + 1]. *)
Fixpoint indexed_detections (i : nat) (rs : list (@DetectResult Detection))
  : list (nat * Detection) :=
  match rs with
  | [] => []
  | r :: rest =>
      map (pair i) (detections r) ++ indexed_detections (Datatypes.S i) rest
  end.

(** Sum of the per-frame detection counts. *)
Definition detection_count (rs : list (@DetectResult Detection)) : nat :=
  sum_list (map (fun r => length (detections r)) rs).

(** A message of kind "frame": [data["type"] == "frame"] holds. *)
Definition is_frame (data : Json) : Prop :=
  exists ty, getitem data "type" = Return ty /\ eq_str ty "frame" = true.

(** The image carried by a frame message. *)
Definition frame_payload (imdecode : list byte -> Outcome (option Frame))
    (data : Json) : Outcome (option Frame) :=
  match getitem data "frame" with
  | Return frame_data =>
      match fromhex frame_data with
      | Return raw => imdecode raw
      | Raise e => Raise e
      end
  | Raise e => Raise e
  end.

(** A trace made of request/response rounds: a message of another kind is
    read and nothing else happens; a frame message is read, the Detector
    is called on its image and the result is sent; only the last round may
    stop short (the turn raised). *)
Inductive rounds (imdecode : list byte -> Outcome (option Frame))
  : list (@Event Frame Detection) -> Prop :=
| rounds_done : rounds imdecode []
| rounds_skip data ty tr :
    getitem data "type" = Return ty ->
    eq_str ty "frame" = false ->
    rounds imdecode tr ->
    rounds imdecode (EvRecv data :: tr)
| rounds_answer data image results tr :
    is_frame data ->
    frame_payload imdecode data = Return image ->
    rounds imdecode tr ->
    rounds imdecode
      (EvRecv data :: EvDetect image (Return results)
         :: EvSend (response_of results) :: tr)
| rounds_abort_early data :
    rounds imdecode [EvRecv data]
| rounds_abort_late data image result :
    rounds imdecode [EvRecv data; EvDetect image result].

(** The messages sent, and the results the Detector returned, in trace
    order. *)
Definition sends (tr : list (@Event Frame Detection))
  : list (@StreamResponse Detection) :=
  omap (fun ev => match ev with EvSend m => Some m | _ => None end) tr.

Definition detected (tr : list (@Event Frame Detection))
  : list (@DetectResult Detection) :=
  omap (fun ev =>
          match ev with EvDetect _ (Return r) => Some r | _ => None end) tr.

Definition is_recv (ev : @Event Frame Detection) : bool :=
  match ev with EvRecv _ => true | _ => false end.

(** The messages read, in trace order. *)
Definition received (tr : list (@Event Frame Detection)) : list Json :=
  omap (fun ev => match ev with EvRecv data => Some data | _ => None end) tr.

End Vocabulary.

(** *** Frames that are served *)

Section Serving.

Context {Frame Detection D S Conn : Type}.

Variable detect : D -> option Frame -> Outcome (@DetectResult Detection) * D.
Variable imdecode : list byte -> Outcome (option Frame).
Variable ws_receive_json : Conn -> Completion Json * Conn.
Variable ws_send_json :
  @StreamResponse Detection -> Conn -> Completion unit * Conn.



End Serving.

(** *** What a client puts on the socket *)

(** One hexadecimal digit, lower case, as [bytes.hex()] prints it. *)
Definition hexdigit (n : N) : ascii :=
  ascii_of_N (if (n <? 10)%N then n + 48 else n + 87).

(** [bs.hex()]: two digits per byte, high nibble first. *)
Fixpoint hex (bs : list byte) : string :=
  match bs with
  | [] => EmptyString
  | b :: rest =>
      String (hexdigit (Byte.to_N b / 16))
        (String (hexdigit (Byte.to_N b mod 16)) (hex rest))
  end.

(** The inbound message [{"type": "frame", "frame": bs.hex()}]. *)
Definition encode_frame (bs : list byte) : Json :=
  JObj (<["type" := JStr "frame"]> (<["frame" := JStr (hex bs)]> ∅)).

(* ================================================================== *)
(** ** A concrete deployment, for running the handlers *)
(* ================================================================== *)

Module Scenario.

(** Frames, detections and masks are numbers; the engines count their
    calls; the socket is the script of what the client will send. *)
Definition Frame := nat.
Definition Detection := nat.
Definition Mask := nat.

Definition YOLODetector (model_name : string) : Outcome nat := Return 0.
Definition SAM3DSegmenter : Outcome nat := Return 0.

(** Loaders that fail. *)
Definition YOLODetector_missing_weights (model_name : string) : Outcome nat :=
  Raise (Error "FileNotFoundError" (model_name +:+ ".pt")).
Definition SAM3DSegmenter_out_of_memory : Outcome nat :=
  Raise (Error "RuntimeError" "out of memory").

(** A detector that finds [f] objects in frame [f] and rejects a missing
    image. *)
Definition detect (d : nat) (image : option Frame)
  : Outcome (@DetectResult Detection) * nat :=
  match image with
  | Some f =>
      (Return {| detections := seq 0 f; processing_time := Finite 3 0 |},
       Datatypes.S d)
  | None => (Raise (Error "ValueError" "image is None"), d)
  end.

(** A detector whose inference fails. *)
Definition detect_failing (d : nat) (image : option Frame)
  : Outcome (@DetectResult Detection) * nat :=
  (Raise (Error "RuntimeError" "inference failed"), d).

(** A segmenter that answers "no objects" when it is handed no image. *)
Definition segment (s : nat) (image : option Frame)
  : Outcome (@SegmentResult Mask) * nat :=
  match image with
  | Some f =>
      (Return {| masks := seq 0 f; num_objects := Z.of_nat f;
                 seg_processing_time := Finite 5 0 |}, Datatypes.S s)
  | None =>
      (Return {| masks := []; num_objects := 0;
                 seg_processing_time := Finite 0 0 |}, Datatypes.S s)
  end.

(** A segmenter that rejects a missing image. *)
Definition segment_strict (s : nat) (image : option Frame)
  : Outcome (@SegmentResult Mask) * nat :=
  match image with
  | Some f => segment s image
  | None => (Raise (Error "ValueError" "image is None"), s)
  end.

(** The decoder: an empty buffer is an error, a buffer starting with the
    PNG magic byte is an image, anything else is not. *)
Definition imdecode (data : list byte) : Outcome (option Frame) :=
  match data with
  | [] => Raise (Error "cv2.error" "(-215:Assertion failed) !buf.empty()")
  | b :: _ =>
      if Byte.eqb b x89 then Return (Some (length data)) else Return None
  end.

Definition shape (f : Frame) : Z * Z := (480, 640)%Z.

(** 29.97 as a double: 8435805052018360 * 2^-48. *)
Definition ntsc_rate : float := Finite 8435805052018360 (-48).

(** Every byte of the file is one frame; 640x480 at 29.97 frames per
    second. *)
Definition demux (data : list byte) : @VideoCapture Frame :=
  {| isOpened := true;
     CAP_PROP_FPS := ntsc_rate;
     CAP_PROP_FRAME_WIDTH := Finite 640 0;
     CAP_PROP_FRAME_HEIGHT := Finite 480 0;
     frames := map (fun b => N.to_nat (Byte.to_N b)) data |}.

Definition writable (path : string) : bool := true.

(** A path that cannot be written, and a disk that fills up after the
    first byte. *)
Definition read_only (path : string) : bool := false.

#[export] Instance disk_full : Storage :=
  {| write_failure := fun path data =>
       (Error "OSError"
          ("[Errno 28] No space left on device: " +:+ repr_key path),
        Some 1) |}.

Definition mux (path : string) (rate : Z) (size : Z * Z)
  : option (list byte) := Some [].

Definition ObjectCounter : Outcome unit := Return tt.

(** The socket: the handshake succeeds, messages come from the script and
    the client hangs up at its end, sends succeed. *)
Definition Conn := list Json.

Definition ws_accept (c : Conn) : Completion unit * Conn := (Return tt, c).

Definition ws_receive_json (c : Conn) : Completion Json * Conn :=
  match c with
  | [] => (Raise (Error "WebSocketDisconnect" "1000"), [])
  | data :: rest => (Return data, rest)
  end.

Definition ws_send_json (m : @StreamResponse Detection) (c : Conn)
  : Completion unit * Conn := (Return tt, c).

(** The state of this deployment. *)
Definition Process : Type := @World Frame Detection nat nat Conn.

(** A process with nothing loaded, and one with both engines loaded. *)
Definition cold (script : Conn) : Process :=
  {| detector := None; segmenter := None; disk := ∅;
     active_connections := ∅; conn := script; trace := [] |}.

Definition ready (script : Conn) : Process :=
  {| detector := Some 0; segmenter := Some 0; disk := ∅;
     active_connections := ∅; conn := script; trace := [] |}.

(** Uploads. *)
Definition clip : UploadFile :=
  {| filename := Some "a.mp4"; contents := [x02; x00; x03] |}.


Definition garbage : UploadFile :=
  {| filename := Some "notes.txt"; contents := [x68; x69] |}.

Definition picture : UploadFile :=
  {| filename := Some "pear.png"; contents := [x89; x50; x4e; x47] |}.

(** Inbound messages. *)
Definition frame_message (hex : string) : Json :=
  JObj (<["type" := JStr "frame"]> (<["frame" := JStr hex]> ∅)).

Definition ping : Json := JObj (<["type" := JStr "ping"]> ∅).

Definition untyped : Json := JObj (<["frame" := JStr "8950"]> ∅).

(** Engines whose [cleanup] resets their call counter, and a detector
    whose [cleanup] fails. *)
Definition detector_cleanup (d : nat) : Outcome unit * nat := (Return tt, 0).
Definition segmenter_cleanup (s : nat) : Outcome unit * nat := (Return tt, 0).
Definition detector_cleanup_failing (d : nat) : Outcome unit * nat :=
  (Raise (Error "RuntimeError" "CUDA error"), d).

(** A detector that answers "nothing found" when it is handed no image. *)
Definition detect_lenient (d : nat) (image : option Frame)
  : Outcome (@DetectResult Detection) * nat :=
  match image with
  | Some f => detect d image
  | None =>
      (Return {| detections := []; processing_time := Finite 0 0 |},
       Datatypes.S d)
  end.

(** A detector that fails on an empty frame. *)
Definition detect_picky (d : nat) (image : option Frame)
  : Outcome (@DetectResult Detection) * nat :=
  match image with
  | Some 0 => (Raise (Error "ValueError" "empty frame"), d)
  | _ => detect d image
  end.

(** A codec that cannot open anything. *)
Definition demux_unreadable (data : list byte) : @VideoCapture Frame :=
  closed_capture.

(** A socket on which every send fails. *)
Definition ws_send_json_broken (m : @StreamResponse Detection) (c : Conn)
  : Completion unit * Conn :=
  (Raise (Error "RuntimeError" "connection closed"), c).


(** A process with both engines loaded after they served some calls. *)
Definition warm (script : Conn) : Process :=
  {| detector := Some 4; segmenter := Some 2; disk := ∅;
     active_connections := ∅; conn := script; trace := [] |}.

(** A process with both engines loaded and a file of its own on disk. *)
Definition stocked : Process :=
  {| detector := Some 0; segmenter := Some 0;
     disk := {["notes.txt" := [x68; x69]]};
     active_connections := {[3]}; conn := []; trace := [] |}.

(** The answer to [clip]: three frames holding two, no and three
    objects. *)
Definition clip_response : VideoProcessingResponse :=
  {| success := true; output_file := "output_a.mp4"; total_frames := 3;
     total_detections := 5; fps := 29; resolution := (640, 480)%Z |}.

(** A session on which a ping, a message without a kind and another ping
    arrive. *)
Definition script : Conn := [ping; untyped; ping].

End Scenario.

(* ================================================================== *)
(** ** Properties *)
(* ================================================================== *)

(** Unfolds the monad so that a handler applied to a world computes. *)
Ltac run :=
  unfold bind, try_except, gets, modify, lift, raise, ret in *.

(** Settles a statement about a handler's run once the run has been
    computed: reads equations between outcomes apart and tries the
    obvious. *)
Ltac outcome :=
  repeat split; intros;
  repeat match goal with
         | H : Done _ = Done _ |- _ => inversion H; clear H; subst
         | H : is_Some None |- _ => destruct H; discriminate
         end;
  try discriminate; try congruence; eauto.

Section Properties.

Context {Frame Detection Mask D S Conn : Type}.

Variable YOLODetector : string -> Outcome D.
Variable SAM3DSegmenter : Outcome S.
Variable detect : D -> option Frame -> Outcome (@DetectResult Detection) * D.
Variable segment : S -> option Frame -> Outcome (@SegmentResult Mask) * S.
Variable imdecode : list byte -> Outcome (option Frame).
Variable shape : Frame -> Z * Z.
Variable demux : list byte -> @VideoCapture Frame.
Variable writable : string -> bool.
Context {storage : Storage}.
Variable mux : string -> Z -> Z * Z -> option (list byte).
Variable ObjectCounter : Outcome unit.
Variable ws_accept : Conn -> Completion unit * Conn.
Variable ws_receive_json : Conn -> Completion Json * Conn.
Variable ws_send_json :
  @StreamResponse Detection -> Conn -> Completion unit * Conn.

Local Abbreviation World := (@World Frame Detection D S Conn).
Local Abbreviation turn :=
  (ws_iteration detect imdecode ws_receive_json ws_send_json).
Local Abbreviation loop :=
  (receive_loop detect imdecode ws_receive_json ws_send_json).

(** *** Readiness *)

Lemma detect_fruits_not_loaded (file : UploadFile) (w : World) :
  detector w = None ->
  detect_fruits detect imdecode shape file w
  = (Raise (HTTPException 503 "Detector not loaded"), w).
Proof. intros H. unfold detect_fruits. run. now rewrite H. Qed.

Lemma segment_fruits_not_loaded (file : UploadFile) (w : World) :
  segmenter w = None ->
  segment_fruits segment imdecode file w
  = (Raise (HTTPException 503 "Segmenter not loaded"), w).
Proof. intros H. unfold segment_fruits. run. now rewrite H. Qed.

(** C3.  While the engine an endpoint needs is absent, the endpoint
    answers 503 whatever was uploaded: [/detect] when the detector handle
    is [None], [/segment] when the segmenter handle is [None]; the upload
    is not even looked at and the process state is left as it was. *)
Theorem unavailable_while_not_ready (file : UploadFile) (w : World) :
  (detector w = None ->
   detect_fruits detect imdecode shape file w
   = (Raise (HTTPException 503 "Detector not loaded"), w))
  /\ (segmenter w = None ->
      segment_fruits segment imdecode file w
      = (Raise (HTTPException 503 "Segmenter not loaded"), w)).
Proof.
  split; [apply detect_fruits_not_loaded | apply segment_fruits_not_loaded].
Qed.

(** *** Undecodable images *)

(** With the detector loaded, [/detect] turns every exception of its body
    into a 400, and without an image the body cannot finish: either the
    decoder or the detector raises, or reading [image.shape] does. *)
Lemma detect_fruits_undecodable (file : UploadFile) (w : World) (d : D) :
  detector w = Some d ->
  (forall f, imdecode (contents file) <> Return (Some f)) ->
  exists msg w',
    detect_fruits detect imdecode shape file w
    = (Raise (HTTPException 400 msg), w').
Proof.
  intros Hd Hbad. unfold detect_fruits, detector_detect. run.
  rewrite Hd. destruct (imdecode (contents file)) as [[f|]|e] eqn:E.
  - exfalso. now apply (Hbad f).
  - rewrite Hd. destruct (detect d None) as [[r|e] d']; simpl; eauto.
  - eauto.
Qed.

Lemma segment_fruits_undecodable (file : UploadFile) (w : World) (s : S) :
  segmenter w = Some s ->
  (forall f, imdecode (contents file) <> Return (Some f)) ->
  (imdecode (contents file) = Return None ->
   exists e s', segment s None = (Raise e, s')) ->
  exists msg w',
    segment_fruits segment imdecode file w
    = (Raise (HTTPException 400 msg), w').
Proof.
  intros Hs Hbad Hstrict. unfold segment_fruits, segmenter_segment. run.
  rewrite Hs. destruct (imdecode (contents file)) as [[f|]|e] eqn:E.
  - exfalso. now apply (Hbad f).
  - rewrite Hs. destruct Hstrict as (e & s' & ->); simpl; eauto.
  - eauto.
Qed.

Lemma segment_fruits_tolerant (file : UploadFile) (w : World) (s s' : S)
    (r : @SegmentResult Mask) :
  segmenter w = Some s ->
  imdecode (contents file) = Return None ->
  segment s None = (Return r, s') ->
  segment_fruits segment imdecode file w
  = (Return {| sr_success := true; sr_masks := masks r;
               sr_num_objects := num_objects r;
               sr_processing_time_ms := seg_processing_time r |},
     set_segmenter (Some s') w).
Proof.
  intros Hs E Hr. unfold segment_fruits, segmenter_segment. run.
  now rewrite Hs, E, Hs, Hr.
Qed.

(** C4, as amended.  For an upload whose bytes do not decode to an image:
    [/detect] (detector loaded) answers 400 with a message; [/segment]
    (segmenter loaded) answers 400 with a message whenever the decoder
    raises or the Segmenter raises on the missing image, and otherwise
    answers with the success response built from what the Segmenter
    returned for the missing image. *)
Theorem undecodable_image_responses (file : UploadFile) (w : World)
    (Hbad : forall f, imdecode (contents file) <> Return (Some f)) :
  (forall d, detector w = Some d ->
     exists msg w',
       detect_fruits detect imdecode shape file w
       = (Raise (HTTPException 400 msg), w'))
  /\ (forall s, segmenter w = Some s ->
        (imdecode (contents file) = Return None ->
         exists e s', segment s None = (Raise e, s')) ->
        exists msg w',
          segment_fruits segment imdecode file w
          = (Raise (HTTPException 400 msg), w'))
  /\ (forall s s' r, segmenter w = Some s ->
        imdecode (contents file) = Return None ->
        segment s None = (Return r, s') ->
        segment_fruits segment imdecode file w
        = (Return {| sr_success := true; sr_masks := masks r;
                     sr_num_objects := num_objects r;
                     sr_processing_time_ms := seg_processing_time r |},
           set_segmenter (Some s') w)).
Proof.
  split; [|split].
  - intros d Hd. now apply (detect_fruits_undecodable file w d).
  - intros s Hs Hstrict. now apply (segment_fruits_undecodable file w s).
  - intros s s' r. apply segment_fruits_tolerant.
Qed.

(** *** Startup *)

Lemma health_check_reports (w : World) :
  health_check w
  = (Return {| status := "healthy";
               detector_loaded := bool_decide (is_Some (detector w));
               segmenter_loaded := bool_decide (is_Some (segmenter w)) |}, w).
Proof. reflexivity. Qed.

(** C5, as amended.  In a fresh process (both handles [None]) a failing
    engine constructor makes the startup hook raise that failure instead
    of completing.  When the detector fails nothing is loaded; when the
    segmenter fails the detector handle is set and the segmenter handle
    stays [None].  In the state the hook leaves behind, [/health] reports
    the missing engines as not loaded and a request against an engine whose
    handle is missing gets 503. *)
Theorem startup_failure_propagates (w : World) (file : UploadFile)
    (Hd : detector w = None) (Hs : segmenter w = None) :
  (forall e, YOLODetector "yolo11n" = Raise e ->
     startup_event YOLODetector SAM3DSegmenter w = (Raise e, w)
     /\ fst (health_check w)
        = Return {| status := "healthy"; detector_loaded := false;
                    segmenter_loaded := false |}
     /\ fst (detect_fruits detect imdecode shape file w)
        = Raise (HTTPException 503 "Detector not loaded")
     /\ fst (segment_fruits segment imdecode file w)
        = Raise (HTTPException 503 "Segmenter not loaded"))
  /\ (forall d e, YOLODetector "yolo11n" = Return d ->
        SAM3DSegmenter = Raise e ->
        let w' := set_detector (Some d) w in
        startup_event YOLODetector SAM3DSegmenter w = (Raise e, w')
        /\ fst (health_check w')
           = Return {| status := "healthy"; detector_loaded := true;
                       segmenter_loaded := false |}
        /\ fst (segment_fruits segment imdecode file w')
           = Raise (HTTPException 503 "Segmenter not loaded")).
Proof.
  split.
  - intros e He. repeat split.
    + unfold startup_event. run. now rewrite He.
    + rewrite health_check_reports. simpl. now rewrite Hd, Hs.
    + now rewrite detect_fruits_not_loaded.
    + now rewrite segment_fruits_not_loaded.
  - intros d e Hload He w'. repeat split.
    + unfold startup_event. run. now rewrite Hload, He.
    + rewrite health_check_reports. simpl. now rewrite Hs.
    + now rewrite segment_fruits_not_loaded.
Qed.

(** *** Integer conversion *)

Lemma int_truncation (x : float) (z : Z) :
  int x = Return z -> truncation_of x z.
Proof.
  destruct x as [m e| |]; simpl; [|discriminate..].
  destruct (0 <=? e)%Z eqn:He; intros H; inversion H as [Hz]; [reflexivity|].
  apply Z.leb_gt in He.
  assert (Hpos : (0 < 2 ^ (- e))%Z) by (apply Z.pow_pos_nonneg; lia).
  set (b := (2 ^ (- e))%Z) in *.
  assert (Habs : Z.abs (m ÷ b) = (Z.abs m ÷ b)%Z).
  { rewrite <- (Z.abs_eq b) at 2 by lia. symmetry. apply Z.quot_abs. lia. }
  pose proof (Z.mul_quot_le (Z.abs m) b (Z.abs_nonneg m) ltac:(lia)) as Hle.
  pose proof (Z.mul_succ_quot_gt (Z.abs m) b (Z.abs_nonneg m) Hpos) as Hgt.
  rewrite Habs. repeat split; try lia.
  destruct (Z.le_gt_cases 0 m) as [Hm|Hm].
  - pose proof (Z.quot_pos m b Hm Hpos). nia.
  - assert (Hq : (m ÷ b = - ((- m) ÷ b))%Z).
    { rewrite Z.quot_opp_l by lia. lia. }
    pose proof (Z.quot_pos (- m) b ltac:(lia) Hpos). nia.
Qed.

(** *** The frame loop *)

Lemma detector_detect_frame image (w : World) r w' :
  detector_detect detect image w = (r, w') ->
  disk w' = disk w /\ segmenter w' = segmenter w
  /\ active_connections w' = active_connections w /\ conn w' = conn w.
Proof.
  unfold detector_detect. intros H.
  destruct (detector w) as [d|].
  - destruct (detect d image) as [r0 d']. now inversion H.
  - now inversion H.
Qed.

Lemma video_loop_disk pending : forall n dl (w : World) r w',
  video_loop detect pending n dl w = (r, w') -> disk w' = disk w.
Proof.
  induction pending as [|frame rest IH]; intros n dl w r w' H; simpl in H.
  - now inversion H.
  - run. destruct (detector_detect detect (Some frame) w)
      as [[[results|e]|i] w1] eqn:E.
    + apply detector_detect_frame in E as (E & _). apply IH in H. congruence.
    + apply detector_detect_frame in E as (E & _). inversion H; subst.
      congruence.
    + apply detector_detect_frame in E as (E & _). inversion H; subst.
      congruence.
Qed.

(** The loop against its specification: it returns only when the Detector
    returned for every pending frame, and then the counter has advanced by
    the number of frames and the list has grown by their detections, frame
    after frame. *)
Lemma video_loop_returns pending : forall n dl (w : World) n' dl' w' d,
  detector w = Some d ->
  video_loop detect pending n dl w = (Return (n', dl'), w') ->
  let rs := detector_returns detect d pending in
  length rs = length pending
  /\ n' = (n + Z.of_nat (length pending))%Z
  /\ dl' = dl ++ concat (map detections rs)
  /\ trace w' = trace w
                ++ zip_with (fun f r => EvDetect (Some f) (Return r)) pending rs
  /\ disk w' = disk w.
Proof.
  induction pending as [|frame rest IH];
    intros n dl w n' dl' w' d Hd H; simpl in *.
  - run. inversion H; subst. rewrite !app_nil_r. repeat split; lia.
  - run. unfold detector_detect in H. rewrite Hd in H.
    destruct (detect d (Some frame)) as [[results|e] d1] eqn:E;
      [|discriminate].
    eapply IH in H; [|reflexivity]. simpl in H.
    destruct H as (Hl & Hn & Hdl & Htr & Hdisk).
    simpl. repeat split.
    + now rewrite Hl.
    + lia.
    + now rewrite Hdl, <- app_assoc.
    + now rewrite Htr, <- app_assoc.
    + exact Hdisk.
Qed.

Lemma indexed_detections_values (rs : list (@DetectResult Detection)) :
  forall i, map snd (indexed_detections i rs) = concat (map detections rs).
Proof.
  induction rs as [|r rest IH]; intros i; simpl; [reflexivity|].
  rewrite map_app, map_map, IH. simpl. now rewrite map_id.
Qed.

Lemma indexed_detections_from (rs : list (@DetectResult Detection)) :
  forall i, Forall (le i) (map fst (indexed_detections i rs)).
Proof.
  induction rs as [|r rest IH]; intros i; simpl; [constructor|].
  rewrite map_app, map_map. simpl. apply Forall_app. split.
  - apply Forall_forall. intros x Hx. apply list_elem_of_In, in_map_iff in Hx.
    destruct Hx as (y & <- & _). lia.
  - eapply Forall_impl; [apply IH|]. simpl. intros; lia.
Qed.

Lemma indexed_detections_sorted (rs : list (@DetectResult Detection)) :
  forall i, StronglySorted le (map fst (indexed_detections i rs)).
Proof.
  induction rs as [|r rest IH]; intros i; simpl; [constructor|].
  rewrite map_app, map_map. simpl.
  induction (detections r) as [|x l IHl]; simpl.
  - apply IH.
  - constructor; [exact IHl|]. apply Forall_app. split.
    + apply Forall_forall. intros y Hy.
      apply list_elem_of_In, in_map_iff in Hy.
      destruct Hy as (z & <- & _). lia.
    + eapply Forall_impl; [apply indexed_detections_from|]. simpl. intros; lia.
Qed.

Lemma detection_count_length (rs : list (@DetectResult Detection)) :
  length (concat (map detections rs)) = detection_count rs.
Proof.
  unfold detection_count. induction rs as [|r rest IH]; simpl; [reflexivity|].
  now rewrite length_app, IH.
Qed.

(** *** The video handler *)

Lemma temp_is_not_output (file : UploadFile) :
  output_path_of file <> temp_path_of file.
Proof. unfold temp_path_of, output_path_of. simpl. discriminate. Qed.

Lemma loop_entry_state file rate size (w : World) :
  disk (loop_entry mux file rate size w) !! temp_path_of file
  = Some (contents file)
  /\ detector (loop_entry mux file rate size w) = detector w
  /\ trace (loop_entry mux file rate size w)
     = trace w ++ [EvVideoWriter (output_path_of file) rate size].
Proof.
  unfold loop_entry, cv2_VideoWriter.
  destruct (mux _ _ _) as [data|]; simpl; repeat split.
  - rewrite lookup_insert_ne by apply temp_is_not_output.
    apply lookup_insert_eq.
  - apply lookup_insert_eq.
Qed.

(** What a successful run of [process_video] went through. *)
Lemma process_video_returns file seg (w : World) resp w' :
  process_video detect demux writable mux ObjectCounter file seg w
  = (Return resp, w') ->
  exists d rate width height n dl w2,
    let cap := demux (contents file) in
    detector w = Some d
    /\ int (CAP_PROP_FPS cap) = Return rate
    /\ int (CAP_PROP_FRAME_WIDTH cap) = Return width
    /\ int (CAP_PROP_FRAME_HEIGHT cap) = Return height
    /\ video_loop detect (frames_read cap) 0 []
         (loop_entry mux file rate (width, height) w)
       = (Return (n, dl), w2)
    /\ resp = {| success := true;
                 output_file := output_path_of file;
                 total_frames := n;
                 total_detections := Z.of_nat (length dl);
                 fps := rate;
                 resolution := (width, height) |}
    /\ w' = set_disk (delete (temp_path_of file) (disk w2)) w2.
Proof.
  unfold process_video, open_wb, cv2_VideoCapture, os_remove. run.
  intros H.
  destruct (detector w) as [d|] eqn:Hd; [|discriminate].
  destruct (writable (temp_path_of file)) eqn:Hw;
    [|destruct (write_failure _ _) as [e0 [k|]]; discriminate].
  simpl in H. rewrite lookup_insert_eq in H.
  destruct (int (CAP_PROP_FPS _)) as [rate|] eqn:Hrate; [|discriminate].
  destruct (int (CAP_PROP_FRAME_WIDTH _)) as [width|] eqn:Hwidth;
    [|discriminate].
  destruct (int (CAP_PROP_FRAME_HEIGHT _)) as [height|] eqn:Hheight;
    [|discriminate].
  destruct (cv2_VideoWriter mux _ _ _ _) as [o w1] eqn:Hwriter.
  assert (Hentry : w1 = loop_entry mux file rate (width, height) w)
    by (unfold loop_entry; now rewrite Hwriter).
  assert (Ho : o = Return tt).
  { unfold cv2_VideoWriter in Hwriter.
    destruct (mux _ _ _); now inversion Hwriter. }
  subst o. destruct ObjectCounter as [[]|]; [|discriminate].
  remember ((if isOpened (demux (contents file))
             then video_loop detect (frames (demux (contents file))) 0%Z []
             else fun w0 : World => (Return (0%Z, []), w0)) w1)
    as looped eqn:Hloop.
  destruct looped as [[[[n dl]|e]|i] w2]; [|discriminate..].
  symmetry in Hloop.
  assert (Hdisk : disk w2 = disk w1).
  { destruct (isOpened (demux (contents file))).
    - now apply video_loop_disk in Hloop.
    - now inversion Hloop. }
  rewrite Hdisk, Hentry in H.
  rewrite (proj1 (loop_entry_state file rate (width, height) w)) in H.
  simpl in H. inversion H; subst resp w'.
  exists d, rate, width, height, n, dl, w2. simpl.
  repeat split; try assumption.
  - rewrite <- Hentry. unfold frames_read.
    destruct (isOpened (demux (contents file))); exact Hloop.
  - now rewrite <- Hentry, <- Hdisk.
Qed.

(** When the upload cannot be stored the handler gives up with the
    failure as the detail of a 400, and what the failed attempt left at
    the temporary path stays there. *)
Lemma process_video_not_writable file seg (w : World) d :
  detector w = Some d ->
  writable (temp_path_of file) = false ->
  let failure := write_failure (temp_path_of file) (contents file) in
  process_video detect demux writable mux ObjectCounter file seg w
  = (Raise (HTTPException 400 (str (fst failure))),
     match snd failure with
     | None => w
     | Some n =>
         set_disk
           (<[temp_path_of file := take n (contents file)]> (disk w)) w
     end).
Proof.
  intros Hd Hw. unfold process_video, open_wb. run. rewrite Hd, Hw.
  now destruct (write_failure _ _) as [e [n|]].
Qed.

(** Once the upload is on disk, every failure of the handler is a 400 and
    leaves the upload where it was written. *)
Lemma process_video_raises file seg (w : World) e w' d :
  detector w = Some d ->
  writable (temp_path_of file) = true ->
  process_video detect demux writable mux ObjectCounter file seg w
  = (Raise e, w') ->
  disk w' !! temp_path_of file = Some (contents file)
  /\ exists msg, e = HTTPException 400 msg.
Proof.
  intros Hd Hw.
  unfold process_video, open_wb, cv2_VideoCapture, os_remove. run.
  rewrite Hd, Hw. simpl. rewrite lookup_insert_eq. intros H.
  destruct (int (CAP_PROP_FPS _)) as [rate|];
    [|inversion H; simpl; rewrite lookup_insert_eq; eauto].
  destruct (int (CAP_PROP_FRAME_WIDTH _)) as [width|];
    [|inversion H; simpl; rewrite lookup_insert_eq; eauto].
  destruct (int (CAP_PROP_FRAME_HEIGHT _)) as [height|];
    [|inversion H; simpl; rewrite lookup_insert_eq; eauto].
  destruct (cv2_VideoWriter mux _ _ _ _) as [o w1] eqn:Hwriter.
  assert (Hentry : w1 = loop_entry mux file rate (width, height) w)
    by (unfold loop_entry; now rewrite Hwriter).
  assert (Ho : o = Return tt).
  { unfold cv2_VideoWriter in Hwriter.
    destruct (mux _ _ _); now inversion Hwriter. }
  pose proof (proj1 (loop_entry_state file rate (width, height) w)) as Htemp.
  rewrite <- Hentry in Htemp. subst o.
  destruct ObjectCounter as [[]|]; [|inversion H; subst; eauto].
  remember ((if isOpened (demux (contents file))
             then video_loop detect (frames (demux (contents file))) 0%Z []
             else fun w0 : World => (Return (0%Z, []), w0)) w1)
    as looped eqn:Hloop.
  destruct looped as [r w2]. symmetry in Hloop.
  assert (Hdisk : disk w2 = disk w1).
  { destruct (isOpened (demux (contents file))).
    - now apply video_loop_disk in Hloop.
    - now inversion Hloop. }
  destruct r as [[counted|e']|i].
  - rewrite Hdisk, Htemp in H. discriminate.
  - inversion H; subst. rewrite Hdisk. eauto.
  - discriminate.
Qed.

(** On the success path the upload has been removed again. *)
Lemma process_video_removes_temp file seg (w : World) resp w' :
  process_video detect demux writable mux ObjectCounter file seg w
  = (Return resp, w') ->
  disk w' !! temp_path_of file = None.
Proof.
  intros H. apply process_video_returns in H.
  destruct H as (d & rate & width & height & n & dl & w2 & H).
  simpl in H. destruct H as (_ & _ & _ & _ & _ & _ & ->). simpl.
  apply lookup_delete_eq.
Qed.

(** The run of a successful [process_video], against the Detector's own
    returns. *)
Lemma process_video_accounts file seg (w : World) resp w' :
  process_video detect demux writable mux ObjectCounter file seg w
  = (Return resp, w') ->
  exists d (w1 w2 : World),
    let read := frames_read (demux (contents file)) in
    let rs := detector_returns detect d read in
    detector w = Some d
    /\ detector w1 = Some d
    /\ length rs = length read
    /\ total_frames resp = Z.of_nat (length read)
    /\ total_detections resp = Z.of_nat (detection_count rs)
    /\ video_loop detect read 0 [] w1
       = (Return (total_frames resp, map snd (indexed_detections 0 rs)), w2)
    /\ StronglySorted le (map fst (indexed_detections 0 rs))
    /\ trace w'
       = trace w
         ++ EvVideoWriter (output_file resp) (fps resp) (resolution resp)
         :: zip_with (fun f r => EvDetect (Some f) (Return r)) read rs.
Proof.
  intros H. apply process_video_returns in H.
  destruct H as (d & rate & width & height & n & dl & w2 & H). simpl in H.
  destruct H as (Hd & _ & _ & _ & Hloop & -> & ->).
  destruct (loop_entry_state file rate (width, height) w) as (_ & Hd1 & Htr1).
  rewrite Hd in Hd1.
  pose proof (video_loop_returns _ _ _ _ _ _ _ d Hd1 Hloop) as Hspec.
  simpl in Hspec. destruct Hspec as (Hl & Hn & Hdl & Htr & _).
  exists d, (loop_entry mux file rate (width, height) w), w2. simpl.
  repeat split.
  - exact Hd.
  - exact Hd1.
  - exact Hl.
  - lia.
  - now rewrite Hdl, detection_count_length.
  - now rewrite indexed_detections_values, <- Hdl.
  - apply indexed_detections_sorted.
  - now rewrite Htr, Htr1, <- app_assoc.
Qed.


(** C2.  When [process_video] answers with a response: the Detector
    returned a result for every frame read from the container;
    [total_frames] is the number of those frames; [total_detections] is
    the sum of the sizes of the per-frame results; the loop accumulated
    the detections frame after frame, so that tagging each detection with
    the index of its frame gives a non-decreasing sequence of indices; and
    the Detector was called on the frames in the order they were read. *)
Theorem video_totals file seg (w : World) resp w' :
  process_video detect demux writable mux ObjectCounter file seg w
  = (Return resp, w') ->
  exists d (w1 w2 : World),
    let read := frames_read (demux (contents file)) in
    let rs := detector_returns detect d read in
    detector w = Some d
    /\ detector w1 = Some d
    /\ length rs = length read
    /\ total_frames resp = Z.of_nat (length read)
    /\ total_detections resp = Z.of_nat (detection_count rs)
    /\ video_loop detect read 0 [] w1
       = (Return (total_frames resp, map snd (indexed_detections 0 rs)), w2)
    /\ StronglySorted le (map fst (indexed_detections 0 rs))
    /\ trace w'
       = trace w
         ++ EvVideoWriter (output_file resp) (fps resp) (resolution resp)
         :: zip_with (fun f r => EvDetect (Some f) (Return r)) read rs.
Proof. apply process_video_accounts. Qed.

(** C10.  When [process_video] answers with a response, the [fps] and the
    two components of [resolution] it reports are what [int()] made of the
    values read from the container, that is their truncations toward zero,
    and the output writer was opened with these same integers. *)
Theorem reported_rate_and_size_truncate file seg (w : World) resp w' :
  process_video detect demux writable mux ObjectCounter file seg w
  = (Return resp, w') ->
  let cap := demux (contents file) in
  int (CAP_PROP_FPS cap) = Return (fps resp)
  /\ truncation_of (CAP_PROP_FPS cap) (fps resp)
  /\ truncation_of (CAP_PROP_FRAME_WIDTH cap) (fst (resolution resp))
  /\ truncation_of (CAP_PROP_FRAME_HEIGHT cap) (snd (resolution resp))
  /\ exists detections_seen,
       trace w'
       = trace w
         ++ EvVideoWriter (output_file resp) (fps resp) (resolution resp)
         :: detections_seen.
Proof.
  intros H. destruct (process_video_accounts _ _ _ _ _ H) as (d & w1 & w2 & Ht).
  simpl in Ht. destruct Ht as (_ & _ & _ & _ & _ & _ & _ & Htr).
  apply process_video_returns in H.
  destruct H as (d' & rate & width & height & n & dl & w3 & H). simpl in H.
  destruct H as (_ & Hrate & Hwidth & Hheight & _ & -> & _). simpl in *.
  repeat split; try (now apply int_truncation); eauto.
Qed.


(** *** The receive loop *)

Lemma eq_str_frame (ty : Json) :
  ty <> JStr "frame" -> eq_str ty "frame" = false.
Proof.
  destruct ty as [| | |s| |]; simpl; try reflexivity.
  intros H. apply String.eqb_neq. congruence.
Qed.

(** What one turn of the loop adds to the trace, by outcome. *)
Lemma ws_iteration_trace (w : World) r w' :
  turn w = (r, w') ->
  active_connections w' = active_connections w
  /\ exists tr,
       trace w' = trace w ++ tr
       /\ match r with
          | Done (Return _) =>
              (exists data ty,
                  tr = [EvRecv data]
                  /\ getitem data "type" = Return ty
                  /\ eq_str ty "frame" = false)
              \/ (exists data image results,
                     tr = [EvRecv data; EvDetect image (Return results);
                           EvSend (response_of results)]
                     /\ is_frame data
                     /\ frame_payload imdecode data = Return image)
          | _ =>
              tr = []
              \/ (exists data, tr = [EvRecv data])
              \/ (exists data image result,
                     tr = [EvRecv data; EvDetect image result])
          end.
Proof.
  unfold ws_iteration, receive_json, send_json, detector_detect,
    frame_payload, is_frame.
  run. intros H.
  destruct (ws_receive_json (conn w)) as [[[data|e]|i] c].
  2,3:(inversion H; subst; simpl; split; [reflexivity|];
       exists []; rewrite app_nil_r; auto).
  destruct (getitem data "type") as [ty|e] eqn:Hty.
  2:{ inversion H; subst. simpl. split; [reflexivity|]. eauto 6. }
  destruct (eq_str ty "frame") eqn:Hkind.
  2:{ inversion H; subst. simpl. split; [reflexivity|]. eauto 8. }
  destruct (getitem data "frame") as [frame_data|e] eqn:Hfd.
  2:{ inversion H; subst. simpl. split; [reflexivity|]. eauto 6. }
  destruct (fromhex frame_data) as [raw|e] eqn:Hraw.
  2:{ inversion H; subst. simpl. split; [reflexivity|]. eauto 6. }
  destruct (imdecode raw) as [image|e] eqn:Himage.
  2:{ inversion H; subst. simpl. split; [reflexivity|]. eauto 6. }
  simpl in H. destruct (detector w) as [d|].
  2:{ inversion H; subst. simpl. split; [reflexivity|]. eauto 6. }
  destruct (detect d image) as [[results|e] d'].
  2:{ inversion H; subst. simpl. split; [reflexivity|].
      exists [EvRecv data; EvDetect image (Raise e)].
      rewrite <- app_assoc. simpl. eauto 8. }
  simpl in H.
  destruct (ws_send_json (response_of results) c) as [[[[]|e]|i] c'];
    inversion H; subst; simpl; (split; [reflexivity|]).
  - exists [EvRecv data; EvDetect image (Return results);
            EvSend (response_of results)].
    rewrite <- !app_assoc. simpl. split; [reflexivity|].
    right. exists data, image, results. rewrite Hfd, Hraw, Himage. eauto.
  - exists [EvRecv data; EvDetect image (Return results)].
    rewrite <- !app_assoc. simpl. eauto 8.
  - exists [EvRecv data; EvDetect image (Return results)].
    rewrite <- !app_assoc. simpl. eauto 8.
Qed.

Lemma receive_loop_rounds (fuel : nat) : forall w : World,
  active_connections (snd (loop fuel w)) = active_connections w
  /\ exists tr,
       trace (snd (loop fuel w)) = trace w ++ tr /\ rounds imdecode tr.
Proof.
  induction fuel as [|n IH]; intros w; simpl.
  - split; [reflexivity|]. exists []. rewrite app_nil_r.
    split; [reflexivity|constructor].
  - destruct (turn w) as [[[[]|e]|i] w1] eqn:Hturn;
      apply ws_iteration_trace in Hturn as (Hact & tr1 & Htr1 & Hshape).
    + destruct (IH w1) as (Hact' & tr' & Htr' & Hrounds).
      split; [congruence|]. exists (tr1 ++ tr').
      rewrite Htr', Htr1, <- app_assoc. split; [reflexivity|].
      destruct Hshape as [(data & ty & -> & Hty & Hkind)
                         |(data & image & results & -> & Hframe & Hpay)].
      * simpl. now apply (rounds_skip _ data ty).
      * simpl. now apply rounds_answer.
    + simpl. split; [exact Hact|]. exists tr1. split; [exact Htr1|].
      destruct Hshape as [->|[(data & ->)|(data & image & result & ->)]];
        constructor.
    + simpl. split; [exact Hact|]. exists tr1. split; [exact Htr1|].
      destruct Hshape as [->|[(data & ->)|(data & image & result & ->)]];
        constructor.
Qed.








(** A message without a kind is not skipped: the lookup of ["type"] raises
    and the turn with it. *)
Lemma missing_kind_raises (w : World) (data : Json) (c : Conn) e :
  ws_receive_json (conn w) = (Return data, c) ->
  getitem data "type" = Raise e ->
  turn w = (Raise e, log (EvRecv data) (set_conn c w)).
Proof.
  intros Hrecv Hty. unfold ws_iteration, receive_json. run.
  now rewrite Hrecv, Hty.
Qed.

(** C6, as amended.  A message that carries a ["type"] field whose value
    is not "frame" is read and nothing else happens: the turn ends
    normally, no reply and no error of any kind is produced, the session
    stays registered and the loop goes on to its next turn.  A message
    that carries no kind (it is not a JSON object, or it has no ["type"]
    field) is not skipped: looking up its kind raises and that exception
    leaves the loop. *)
Theorem other_kinds_are_skipped (w : World) (data : Json) (c : Conn) :
  ws_receive_json (conn w) = (Return data, c) ->
  let w' := log (EvRecv data) (set_conn c w) in
  (forall ty, getitem data "type" = Return ty -> ty <> JStr "frame" ->
     turn w = (Return tt, w')
     /\ (forall n, loop (Datatypes.S n) w = loop n w')
     /\ active_connections w' = active_connections w
     /\ trace w' = trace w ++ [EvRecv data]
     /\ sends (trace w') = sends (trace w))
  /\ (forall e, getitem data "type" = Raise e ->
        turn w = (Raise e, w')
        /\ forall n, loop (Datatypes.S n) w = (Some e, w')).
Proof.
  intros Hrecv w'. split.
  - intros ty Hty Hkind.
    assert (Hturn : turn w = (Return tt, w')).
    { unfold ws_iteration, receive_json. run.
      now rewrite Hrecv, Hty, (eq_str_frame ty Hkind). }
    repeat split; try exact Hturn.
    + intros n. simpl. now rewrite Hturn.
    + unfold sends. simpl. rewrite omap_app. simpl. now rewrite app_nil_r.
  - intros e Hty.
    pose proof (missing_kind_raises w data c e Hrecv Hty) as Hturn.
    split; [exact Hturn|]. intros n. simpl. now rewrite Hturn.
Qed.


Lemma malformed_payload_raises (w : World) (data : Json) (c : Conn) e :
  ws_receive_json (conn w) = (Return data, c) ->
  is_frame data ->
  frame_payload imdecode data = Raise e ->
  turn w = (Raise e, log (EvRecv data) (set_conn c w)).
Proof.
  intros Hrecv (ty & Hty & Hkind) Hpay.
  unfold ws_iteration, receive_json, frame_payload in *. run.
  rewrite Hrecv, Hty, Hkind.
  destruct (getitem data "frame") as [frame_data|e1]; [|congruence].
  destruct (fromhex frame_data) as [raw|e2]; [|congruence].
  now rewrite Hpay.
Qed.


Lemma send_failure_raises (w : World) (data : Json) (c c' : Conn) image
    d d' results e :
  ws_receive_json (conn w) = (Return data, c) ->
  is_frame data ->
  frame_payload imdecode data = Return image ->
  detector w = Some d ->
  detect d image = (Return results, d') ->
  ws_send_json (response_of results) c = (Raise e, c') ->
  exists w', turn w = (Raise e, w').
Proof.
  intros Hrecv (ty & Hty & Hkind) Hpay Hd Hdet Hsend.
  unfold ws_iteration, receive_json, send_json, frame_payload,
    detector_detect in *.
  run. rewrite Hrecv, Hty, Hkind.
  destruct (getitem data "frame") as [frame_data|e1]; [|discriminate].
  destruct (fromhex frame_data) as [raw|e2]; [|discriminate].
  rewrite Hpay. simpl. rewrite Hd, Hdet. simpl. rewrite Hsend. eauto.
Qed.





(* ------------------------------------------------------------------ *)
(** *** Further properties of the handlers *)
(* ------------------------------------------------------------------ *)

Variable detector_cleanup : D -> Outcome unit * D.
Variable segmenter_cleanup : S -> Outcome unit * S.

Lemma detect_fruits_run (file : UploadFile) (w : World) :
  let run := detect_fruits detect imdecode shape file w in
  (detector w = None
   <-> fst run = Raise (HTTPException 503 "Detector not loaded"))
  /\ (forall e, fst run = Raise e ->
        e = HTTPException 503 "Detector not loaded"
        \/ exists msg, e = HTTPException 400 msg)
  /\ (forall resp, fst run = Return resp -> dr_success resp = true)
  /\ (is_Some (detector (snd run)) <-> is_Some (detector w))
  /\ segmenter (snd run) = segmenter w
  /\ disk (snd run) = disk w
  /\ active_connections (snd run) = active_connections w
  /\ conn (snd run) = conn w.
Proof.
  unfold detect_fruits, detector_detect, image_shape. run.
  destruct (detector w) as [d|] eqn:Hd; simpl.
  2:{ rewrite Hd. outcome. }
  destruct (imdecode (contents file)) as [image|e]; simpl.
  2:{ rewrite Hd. outcome. }
  rewrite Hd. destruct (detect d image) as [[results|e] d']; simpl.
  2:{ outcome. }
  destruct image as [f|]; simpl; outcome.
Qed.

(** X1.  [/detect] answers 503 exactly when no detector is loaded.  Every
    exception of class [Exception] raised while the upload is decoded and
    detected is caught and leaves the handler as a 400, so these two are
    the only exceptions of class [Exception] that leave it; a response,
    when there is one, says [success = true].  Whatever the outcome, the
    handler keeps the detector handle set and leaves the segmenter, the
    disk and the streaming sessions untouched. *)
Theorem detect_fruits_outcomes (file : UploadFile) (w : World) :
  let run := detect_fruits detect imdecode shape file w in
  (detector w = None
   <-> fst run = Raise (HTTPException 503 "Detector not loaded"))
  /\ (forall e, fst run = Raise e ->
        e = HTTPException 503 "Detector not loaded"
        \/ exists msg, e = HTTPException 400 msg)
  /\ (forall resp, fst run = Return resp -> dr_success resp = true)
  /\ (is_Some (detector (snd run)) <-> is_Some (detector w))
  /\ segmenter (snd run) = segmenter w
  /\ disk (snd run) = disk w
  /\ active_connections (snd run) = active_connections w
  /\ conn (snd run) = conn w.
Proof. apply detect_fruits_run. Qed.

Lemma segment_fruits_run (file : UploadFile) (w : World) :
  let run := segment_fruits segment imdecode file w in
  (segmenter w = None
   <-> fst run = Raise (HTTPException 503 "Segmenter not loaded"))
  /\ (forall e, fst run = Raise e ->
        e = HTTPException 503 "Segmenter not loaded"
        \/ exists msg, e = HTTPException 400 msg)
  /\ (forall resp, fst run = Return resp -> sr_success resp = true)
  /\ (is_Some (segmenter (snd run)) <-> is_Some (segmenter w))
  /\ detector (snd run) = detector w
  /\ trace (snd run) = trace w
  /\ disk (snd run) = disk w
  /\ active_connections (snd run) = active_connections w
  /\ conn (snd run) = conn w.
Proof.
  unfold segment_fruits, segmenter_segment. run.
  destruct (segmenter w) as [s|] eqn:Hs; simpl.
  2:{ rewrite Hs. outcome. }
  destruct (imdecode (contents file)) as [image|e]; simpl.
  2:{ rewrite Hs. outcome. }
  rewrite Hs. destruct (segment s image) as [[results|e] s']; simpl; outcome.
Qed.

(** X2.  [/segment] answers 503 exactly when no segmenter is loaded.
    Every exception of class [Exception] raised while the upload is
    decoded and segmented is caught and leaves the handler as a 400, so
    these two are the only exceptions of class [Exception] that leave it;
    a response, when there is one, says [success = true].  Whatever the
    outcome, the handler never calls the detector and leaves the trace,
    the disk and the streaming sessions as they were. *)
Theorem segment_fruits_outcomes (file : UploadFile) (w : World) :
  let run := segment_fruits segment imdecode file w in
  (segmenter w = None
   <-> fst run = Raise (HTTPException 503 "Segmenter not loaded"))
  /\ (forall e, fst run = Raise e ->
        e = HTTPException 503 "Segmenter not loaded"
        \/ exists msg, e = HTTPException 400 msg)
  /\ (forall resp, fst run = Return resp -> sr_success resp = true)
  /\ (is_Some (segmenter (snd run)) <-> is_Some (segmenter w))
  /\ detector (snd run) = detector w
  /\ trace (snd run) = trace w
  /\ disk (snd run) = disk w
  /\ active_connections (snd run) = active_connections w
  /\ conn (snd run) = conn w.
Proof. apply segment_fruits_run. Qed.

(** X3.  On the success path of [/detect] the response carries the
    Detector's detections and processing time unchanged, and [image_shape]
    is (columns, rows) of the decoded image, that is width before height;
    the only state that changes is the detector object. *)
Theorem detect_fruits_success (file : UploadFile) (w : World) (d d' : D)
    (f : Frame) (results : @DetectResult Detection) :
  detector w = Some d ->
  imdecode (contents file) = Return (Some f) ->
  detect d (Some f) = (Return results, d') ->
  detect_fruits detect imdecode shape file w
  = (Return {| dr_success := true;
               dr_detections := detections results;
               dr_image_shape := (snd (shape f), fst (shape f));
               dr_processing_time_ms := processing_time results |},
     log (EvDetect (Some f) (Return results)) (set_detector (Some d') w)).
Proof.
  intros Hd Himage Hdet. unfold detect_fruits, detector_detect. run.
  now rewrite Hd, Himage, Hd, Hdet.
Qed.

(** X4.  [/detect] does not look at what the decoder returned before it
    calls the Detector: for bytes that are no image the Detector is run on
    the missing image, and when it returns, the request is rejected only
    afterwards, by the failing read of [image.shape], with that
    attribute error as the detail of the 400. *)
Theorem detect_fruits_runs_detector_on_missing_image (file : UploadFile)
    (w : World) (d d' : D) (results : @DetectResult Detection) :
  detector w = Some d ->
  imdecode (contents file) = Return None ->
  detect d None = (Return results, d') ->
  detect_fruits detect imdecode shape file w
  = (Raise (HTTPException 400
              "'NoneType' object has no attribute 'shape'"),
     log (EvDetect None (Return results)) (set_detector (Some d') w)).
Proof.
  intros Hd Himage Hdet. unfold detect_fruits, detector_detect. run.
  now rewrite Hd, Himage, Hd, Hdet.
Qed.

(** *** Further properties of the video handler *)

Lemma loop_entry_disk file rate size (w : World) :
  disk (loop_entry mux file rate size w)
  = match mux (output_path_of file) rate size with
    | Some data =>
        <[output_path_of file := data]>
          (<[temp_path_of file := contents file]> (disk w))
    | None => <[temp_path_of file := contents file]> (disk w)
    end.
Proof.
  unfold loop_entry, cv2_VideoWriter. now destruct (mux _ _ _).
Qed.

Lemma loop_entry_frame file rate size (w : World) :
  segmenter (loop_entry mux file rate size w) = segmenter w
  /\ active_connections (loop_entry mux file rate size w)
     = active_connections w
  /\ conn (loop_entry mux file rate size w) = conn w.
Proof.
  unfold loop_entry, cv2_VideoWriter. now destruct (mux _ _ _).
Qed.

Lemma video_loop_frame pending : forall n dl (w : World) r w',
  video_loop detect pending n dl w = (r, w') ->
  segmenter w' = segmenter w
  /\ active_connections w' = active_connections w
  /\ conn w' = conn w.
Proof.
  induction pending as [|frame rest IH]; intros n dl w r w' H; simpl in H.
  - now inversion H.
  - run. destruct (detector_detect detect (Some frame) w)
      as [[[results|e]|i] w1] eqn:E;
      apply detector_detect_frame in E as (_ & E1 & E2 & E3).
    + apply IH in H as (H1 & H2 & H3). repeat split; congruence.
    + inversion H; subst. repeat split; congruence.
    + inversion H; subst. repeat split; congruence.
Qed.

Lemma detector_detect_done image (w : World) r w' :
  detector_detect detect image w = (r, w') -> exists o, r = Done o.
Proof.
  unfold detector_detect. intros H0.
  destruct (detector w) as [d|].
  - destruct (detect d image) as [o d']. inversion H0. eauto.
  - inversion H0. eauto.
Qed.

(** The frame loop is not suspended anywhere, so it is never
    interrupted. *)
Lemma video_loop_done pending : forall n dl (w : World) r w',
  video_loop detect pending n dl w = (r, w') -> exists o, r = Done o.
Proof.
  induction pending as [|frame rest IH]; intros n dl w r w' H0; simpl in H0.
  - inversion H0. eauto.
  - run. destruct (detector_detect detect (Some frame) w)
      as [[[results|e]|i] w1] eqn:E.
    + now apply IH in H0.
    + inversion H0. eauto.
    + apply detector_detect_done in E as (o & E). discriminate.
Qed.

(** How far a run of [process_video] got, with the disk it leaves behind
    at each stage. *)
Lemma process_video_stages file seg (w : World) r w' :
  process_video detect demux writable mux ObjectCounter file seg w = (r, w') ->
  segmenter w' = segmenter w
  /\ active_connections w' = active_connections w
  /\ conn w' = conn w
  /\ ((detector w = None /\ w' = w
       /\ r = Raise (HTTPException 503 "Detector not loaded"))
      \/ (is_Some (detector w) /\ writable (temp_path_of file) = false
          /\ (disk w' = disk w
              \/ exists n,
                   disk w'
                   = <[temp_path_of file := take n (contents file)]> (disk w))
          /\ exists msg, r = Raise (HTTPException 400 msg))
      \/ (is_Some (detector w) /\ writable (temp_path_of file) = true
          /\ disk w' = <[temp_path_of file := contents file]> (disk w)
          /\ exists msg, r = Raise (HTTPException 400 msg))
      \/ (is_Some (detector w) /\ writable (temp_path_of file) = true
          /\ (exists rate size,
                 disk w' = disk (loop_entry mux file rate size w))
          /\ exists msg, r = Raise (HTTPException 400 msg))
      \/ (is_Some (detector w) /\ writable (temp_path_of file) = true
          /\ exists resp,
               r = Return resp
               /\ success resp = true
               /\ output_file resp = output_path_of file
               /\ disk w'
                  = delete (temp_path_of file)
                      (disk (loop_entry mux file (fps resp)
                               (resolution resp) w)))).
Proof.
  clear detector_cleanup segmenter_cleanup.
  unfold process_video, open_wb, cv2_VideoCapture, os_remove. run.
  intros H0.
  destruct (detector w) as [d|] eqn:Hd.
  2:{ inversion H0; subst. repeat split; auto. }
  destruct (writable (temp_path_of file)) eqn:Hw.
  2:{ destruct (write_failure _ _) as [e0 [k|]]; simpl in H0;
        inversion H0; subst; simpl; repeat split; auto;
        right; left; repeat split; eauto. }
  simpl in H0. rewrite lookup_insert_eq in H0.
  destruct (int (CAP_PROP_FPS _)) as [rate|];
    [|inversion H0; subst; simpl; repeat split; auto;
      right; right; left; repeat split; eauto].
  destruct (int (CAP_PROP_FRAME_WIDTH _)) as [width|];
    [|inversion H0; subst; simpl; repeat split; auto;
      right; right; left; repeat split; eauto].
  destruct (int (CAP_PROP_FRAME_HEIGHT _)) as [height|];
    [|inversion H0; subst; simpl; repeat split; auto;
      right; right; left; repeat split; eauto].
  destruct (cv2_VideoWriter mux _ _ _ _) as [o w1] eqn:Hwriter.
  assert (Hentry : w1 = loop_entry mux file rate (width, height) w)
    by (unfold loop_entry; now rewrite Hwriter).
  assert (Ho : o = Return tt).
  { unfold cv2_VideoWriter in Hwriter.
    destruct (mux _ _ _); now inversion Hwriter. }
  destruct (loop_entry_frame file rate (width, height) w) as (F1 & F2 & F3).
  pose proof (proj1 (loop_entry_state file rate (width, height) w)) as Htemp.
  rewrite <- Hentry in F1, F2, F3, Htemp. subst o.
  destruct ObjectCounter as [[]|].
  2:{ inversion H0; subst r w'. repeat split; auto.
      right; right; right; left. repeat split; eauto.
      exists rate, (width, height). now rewrite Hentry. }
  remember ((if isOpened (demux (contents file))
             then video_loop detect (frames (demux (contents file))) 0%Z []
             else fun w0 : World => (Return (0%Z, []), w0)) w1)
    as looped eqn:Hloop.
  destruct looped as [r2 w2]. symmetry in Hloop.
  assert (Hkeep : disk w2 = disk w1 /\ segmenter w2 = segmenter w1
                  /\ active_connections w2 = active_connections w1
                  /\ conn w2 = conn w1 /\ exists o, r2 = Done o).
  { destruct (isOpened (demux (contents file))).
    - split; [now apply video_loop_disk in Hloop|].
      pose proof (video_loop_done _ _ _ _ _ _ Hloop).
      apply video_loop_frame in Hloop. tauto.
    - inversion Hloop. eauto 6. }
  destruct Hkeep as (K0 & K1 & K2 & K3 & o & ->).
  destruct o as [counted|e'].
  - rewrite K0, Htemp in H0. simpl in H0. inversion H0; subst r w'. simpl.
    repeat split; try congruence.
    right; right; right; right. repeat split; eauto.
    eexists. repeat split; simpl. now rewrite Hentry.
  - inversion H0; subst r w'. repeat split; try congruence.
    right; right; right; left. repeat split; eauto.
    exists rate, (width, height). now rewrite K0, Hentry.
Qed.

Lemma process_video_run (file : UploadFile) (seg : bool) (w : World) :
  let run :=
    process_video detect demux writable mux ObjectCounter file seg w in
  (detector w = None
   <-> fst run = Raise (HTTPException 503 "Detector not loaded"))
  /\ (forall e, fst run = Raise e ->
        e = HTTPException 503 "Detector not loaded"
        \/ exists msg, e = HTTPException 400 msg)
  /\ (forall resp, fst run = Return resp ->
        success resp = true /\ output_file resp = output_path_of file)
  /\ run = process_video detect demux writable mux ObjectCounter file
             (negb seg) w
  /\ segmenter (snd run) = segmenter w
  /\ active_connections (snd run) = active_connections w
  /\ conn (snd run) = conn w.
Proof.
  intros run. destruct run as [r w'] eqn:Hrun. unfold run in Hrun.
  pose proof (process_video_stages _ _ _ _ _ Hrun)
    as (F1 & F2 & F3 & Hstage).
  simpl. split; [|split; [|split; [|split; [|auto]]]].
  - destruct Hstage
      as [(Hd & _ & ->)
         |[(Hd & _ & _ & msg & ->)
          |[(Hd & _ & _ & msg & ->)
           |[(Hd & _ & _ & msg & ->)|(Hd & _ & resp & -> & _)]]]];
      split; intros H0; try reflexivity; try discriminate; try exact Hd;
      rewrite H0 in Hd; destruct Hd; discriminate.
  - intros e He.
    destruct Hstage
      as [(_ & _ & ->)
         |[(_ & _ & _ & msg & ->)
          |[(_ & _ & _ & msg & ->)
           |[(_ & _ & _ & msg & ->)|(_ & _ & resp & -> & _)]]]];
      inversion He; eauto.
  - intros resp0 He.
    destruct Hstage
      as [(_ & _ & ->)
         |[(_ & _ & _ & msg & ->)
          |[(_ & _ & _ & msg & ->)
           |[(_ & _ & _ & msg & ->)|(_ & _ & resp & -> & Hs & Ho & _)]]]];
      inversion He; subst; auto.
  - rewrite <- Hrun. reflexivity.
Qed.

(** X5.  [/process-video] answers 503 exactly when no detector is loaded.
    Every exception of class [Exception] raised after that check (storing
    the upload, reading the container's properties, the counter, the
    Detector, removing the file) is caught and leaves the handler as a
    400, so these two are the only exceptions of class [Exception] that
    leave it; a response, when there is one, says [success = true] and
    names [output_] followed by the upload's name.  The
    [enable_segmentation] flag changes nothing, the segmenter is never
    used, and the streaming sessions are left alone. *)
Theorem process_video_outcomes (file : UploadFile) (seg : bool) (w : World) :
  let run :=
    process_video detect demux writable mux ObjectCounter file seg w in
  (detector w = None
   <-> fst run = Raise (HTTPException 503 "Detector not loaded"))
  /\ (forall e, fst run = Raise e ->
        e = HTTPException 503 "Detector not loaded"
        \/ exists msg, e = HTTPException 400 msg)
  /\ (forall resp, fst run = Return resp ->
        success resp = true /\ output_file resp = output_path_of file)
  /\ run = process_video detect demux writable mux ObjectCounter file
             (negb seg) w
  /\ segmenter (snd run) = segmenter w
  /\ active_connections (snd run) = active_connections w
  /\ conn (snd run) = conn w.
Proof. apply process_video_run. Qed.

(** X6.  What becomes of the temporary file, for a loaded detector.  If
    the upload cannot be stored, the handler answers 400 with the failure
    as its detail; when [open] itself failed nothing has changed, and when
    the failure came after [open] had created the file, the file stays
    behind holding what had been written.  If the upload can be stored,
    the file is gone after every response and still holds the upload
    after every exception. *)
Theorem temp_file_fate (file : UploadFile) (seg : bool) (w : World) (d : D) :
  detector w = Some d ->
  let run :=
    process_video detect demux writable mux ObjectCounter file seg w in
  let failure := write_failure (temp_path_of file) (contents file) in
  (writable (temp_path_of file) = false ->
   fst run = Raise (HTTPException 400 (str (fst failure)))
   /\ match snd failure with
      | None => snd run = w
      | Some n =>
          disk (snd run) !! temp_path_of file
          = Some (take n (contents file))
      end)
  /\ (writable (temp_path_of file) = true ->
      (forall resp, fst run = Return resp ->
         disk (snd run) !! temp_path_of file = None)
      /\ (forall e, fst run = Raise e ->
            disk (snd run) !! temp_path_of file = Some (contents file))).
Proof.
  intros Hd run failure. split.
  - intros Hw. unfold run.
    rewrite (process_video_not_writable file seg w d Hd Hw). simpl.
    split; [reflexivity|]. fold failure.
    destruct (snd failure) as [n|]; [|reflexivity].
    simpl. apply lookup_insert_eq.
  - intros Hw. destruct run as [r w'] eqn:Hrun. simpl. split.
    + intros resp ->.
      now apply (process_video_removes_temp file seg w resp w').
    + intros e ->. now apply (process_video_raises file seg w e w' d).
Qed.

(** X7.  Whatever the outcome, [/process-video] changes the disk at two
    paths at most, its temporary file and its output file: every other
    file is as it was. *)
Theorem process_video_touches_two_paths (file : UploadFile) (seg : bool)
    (w : World) (path : string) :
  path <> temp_path_of file ->
  path <> output_path_of file ->
  disk (snd (process_video detect demux writable mux ObjectCounter file
               seg w)) !! path
  = disk w !! path.
Proof.
  intros Ht Ho.
  destruct (process_video detect demux writable mux ObjectCounter file seg w)
    as [r w'] eqn:Hrun.
  pose proof (process_video_stages _ _ _ _ _ Hrun) as (_ & _ & _ & Hstage).
  assert (Hentry : forall rate size,
             disk (loop_entry mux file rate size w) !! path = disk w !! path).
  { intros rate size. rewrite loop_entry_disk.
    destruct (mux _ _ _);
      rewrite ?(lookup_insert_ne _ (output_path_of file)) by congruence;
      now rewrite lookup_insert_ne by congruence. }
  simpl.
  destruct Hstage
    as [(_ & -> & _)
       |[(_ & _ & [->|(k & ->)] & _)
        |[(_ & _ & -> & _)
         |[(_ & _ & (rate & size & ->) & _)|(_ & _ & resp & _ & _ & _ & ->)]]]];
    try reflexivity.
  - now rewrite lookup_insert_ne by congruence.
  - now rewrite lookup_insert_ne by congruence.
  - apply Hentry.
  - rewrite lookup_delete_ne by congruence. apply Hentry.
Qed.

(** X8.  A container that OpenCV cannot open is not an error for the
    handler: the loop body never runs, the Detector is never called, and
    the answer is a success response with no frames and no detections,
    carrying whatever rate and size the unopened capture reported. *)
Theorem unopened_container_reports_success (file : UploadFile) (seg : bool)
    (w : World) (d : D) (rate width height : Z) :
  detector w = Some d ->
  writable (temp_path_of file) = true ->
  isOpened (demux (contents file)) = false ->
  int (CAP_PROP_FPS (demux (contents file))) = Return rate ->
  int (CAP_PROP_FRAME_WIDTH (demux (contents file))) = Return width ->
  int (CAP_PROP_FRAME_HEIGHT (demux (contents file))) = Return height ->
  ObjectCounter = Return tt ->
  let run :=
    process_video detect demux writable mux ObjectCounter file seg w in
  fst run = Return {| success := true;
                      output_file := output_path_of file;
                      total_frames := 0;
                      total_detections := 0;
                      fps := rate;
                      resolution := (width, height) |}
  /\ detector (snd run) = Some d
  /\ trace (snd run)
     = trace w ++ [EvVideoWriter (output_path_of file) rate (width, height)].
Proof.
  intros Hd Hw Hopen Hrate Hwidth Hheight Hoc run. unfold run.
  unfold process_video, open_wb, cv2_VideoCapture, os_remove. run.
  rewrite Hd, Hw. simpl. rewrite lookup_insert_eq, Hrate, Hwidth, Hheight.
  destruct (cv2_VideoWriter mux _ _ _ _) as [o w1] eqn:Hwriter.
  assert (Hentry : w1 = loop_entry mux file rate (width, height) w)
    by (unfold loop_entry; now rewrite Hwriter).
  assert (Ho : o = Return tt).
  { unfold cv2_VideoWriter in Hwriter.
    destruct (mux _ _ _); now inversion Hwriter. }
  destruct (loop_entry_state file rate (width, height) w) as (S1 & S2 & S3).
  rewrite <- Hentry in S1, S2, S3.
  subst o. rewrite Hoc, Hopen, S1. simpl. rewrite S2, S3. auto.
Qed.

(** X9.  The frame loop stops at the first frame on which the Detector
    raises: the frames before it were each answered, the failing frame is
    the last one the Detector sees, and the exception that leaves the loop
    is the Detector's own. *)
Theorem video_loop_stops_at_first_failure (pending : list Frame) :
  forall (n : Z) (dl : list Detection) (w w' : World) (e : Exception) (d : D),
    detector w = Some d ->
    video_loop detect pending n dl w = (Raise e, w') ->
    let rs := detector_returns detect d pending in
    exists frame,
      pending !! length rs = Some frame
      /\ trace w'
         = trace w
           ++ zip_with (fun f r => EvDetect (Some f) (Return r))
                (take (length rs) pending) rs
           ++ [EvDetect (Some frame) (Raise e)].
Proof.
  induction pending as [|frame rest IH]; intros n dl w w' e d Hd H;
    simpl in H.
  - run. discriminate.
  - run. unfold detector_detect in H. rewrite Hd in H. simpl.
    destruct (detect d (Some frame)) as [[results|e0] d1] eqn:E.
    + eapply IH in H; [|reflexivity]. simpl in H.
      destruct H as (frame' & Hlook & Htr).
      exists frame'. simpl. split; [exact Hlook|].
      now rewrite Htr, <- app_assoc.
    + inversion H; subst. exists frame. simpl. split; reflexivity.
Qed.

(** *** Further properties of the streaming endpoint *)

Lemma fromhex_chars_hex_byte (b : byte) (rest : list ascii) :
  fromhex_chars
    (hexdigit (Byte.to_N b / 16) :: hexdigit (Byte.to_N b mod 16) :: rest)
  = match fromhex_chars rest with
    | Some bs => Some (b :: bs)
    | None => None
    end.
Proof. destruct b; reflexivity. Qed.

Lemma fromhex_chars_hex (bs : list byte) :
  fromhex_chars (String.list_ascii_of_string (hex bs)) = Some bs.
Proof.
  induction bs as [|b rest IH]; [reflexivity|].
  cbn [hex String.list_ascii_of_string].
  now rewrite fromhex_chars_hex_byte, IH.
Qed.

Lemma fromhex_hex (bs : list byte) : fromhex (JStr (hex bs)) = Return bs.
Proof. unfold fromhex. now rewrite fromhex_chars_hex. Qed.

(** X10.  Hex encoding and the endpoint's decoding are inverse: what
    [bytes.fromhex] makes of [bs.hex()] is [bs] again, so the message
    [{"type": "frame", "frame": bs.hex()}] is a frame message whose image
    is exactly what the decoder makes of [bs]. *)
Theorem hex_frame_round_trip (bs : list byte) :
  fromhex (JStr (hex bs)) = Return bs
  /\ is_frame (encode_frame bs)
  /\ frame_payload imdecode (encode_frame bs) = imdecode bs.
Proof.
  pose proof (fromhex_hex bs) as Hhex.
  split; [exact Hhex|]. split.
  - exists (JStr "frame"). unfold encode_frame, getitem.
    rewrite lookup_insert_eq. split; reflexivity.
  - unfold frame_payload, encode_frame, getitem.
    rewrite lookup_insert_ne by discriminate.
    now rewrite lookup_insert_eq, Hhex.
Qed.

(** X11.  The two ways to the Detector agree.  When [/detect] answers an
    upload with a response, a session whose detector is in the same state
    and which receives the same bytes as a hex frame message sends back
    the same detections and the same processing time, provided the send
    succeeds. *)
Theorem stream_agrees_with_detect (file : UploadFile) (w1 w1' w2 : World)
    (d : D) (resp : @DetectionResponse Detection) (c c' : Conn) :
  detector w1 = Some d ->
  detector w2 = Some d ->
  detect_fruits detect imdecode shape file w1 = (Return resp, w1') ->
  ws_receive_json (conn w2) = (Return (encode_frame (contents file)), c) ->
  let message :=
    {| type := "detection_results";
       ws_detections := dr_detections resp;
       ws_processing_time_ms := dr_processing_time_ms resp |} in
  ws_send_json message c = (Return tt, c') ->
  exists w2',
    turn w2 = (Return tt, w2')
    /\ sends (trace w2') = sends (trace w2) ++ [message]
    /\ detector w2' = detector w1'.
Proof.
  intros Hd1 Hd2 Hdet Hrecv message Hsend.
  pose proof (fromhex_hex (contents file)) as Hhex.
  unfold detect_fruits, detector_detect, image_shape in Hdet. run.
  rewrite Hd1 in Hdet.
  destruct (imdecode (contents file)) as [image|e] eqn:Himage;
    [|discriminate].
  simpl in Hdet. rewrite Hd1 in Hdet.
  destruct (detect d image) as [[results|e] d'] eqn:Hcall; [|discriminate].
  simpl in Hdet. destruct image as [f|]; [|discriminate].
  simpl in Hdet. inversion Hdet; subst resp w1'. clear Hdet.
  unfold ws_iteration, receive_json, send_json, detector_detect. run.
  rewrite Hrecv. unfold encode_frame, getitem.
  rewrite lookup_insert_eq. simpl.
  rewrite lookup_insert_ne by discriminate. rewrite lookup_insert_eq.
  rewrite Hhex, Himage. simpl. rewrite Hd2, Hcall. simpl.
  unfold message in Hsend. simpl in Hsend. unfold response_of.
  rewrite Hsend. eexists. split; [reflexivity|]. simpl.
  unfold sends. rewrite !omap_app. simpl. rewrite !app_nil_r.
  split; reflexivity.
Qed.

(** X12.  A message that is not a JSON object, or an object without a
    ["type"] field, is not skipped: looking up its kind raises, the loop
    is left with that exception after reading the message, and nothing is
    sent. *)
Theorem message_without_kind_ends_loop (w : World) (data : Json) (c : Conn)
    (n : nat) :
  ws_receive_json (conn w) = (Return data, c) ->
  (forall o, data = JObj o -> o !! "type" = None) ->
  exists e,
    getitem data "type" = Raise e
    /\ loop (Datatypes.S n) w = (Some e, log (EvRecv data) (set_conn c w)).
Proof.
  intros Hrecv Hkind.
  assert (He : exists e, getitem data "type" = Raise e).
  { destruct data as [| | | | |o]; simpl; eauto.
    rewrite (Hkind o eq_refl). eauto. }
  destruct He as (e & He). exists e. split; [exact He|].
  simpl. now rewrite (missing_kind_raises w data c e Hrecv He).
Qed.

Lemma ws_iteration_without_detector (w : World) r w' :
  detector w = None ->
  turn w = (r, w') ->
  detector w' = None /\ sends (trace w') = sends (trace w)
  /\ detected (trace w') = detected (trace w).
Proof.
  intros Hd. unfold ws_iteration, receive_json, detector_detect. run.
  intros H0.
  assert (Hlog : forall data c,
             sends (trace (log (EvRecv data) (set_conn c w)))
             = sends (trace w)
             /\ detected (trace (log (EvRecv data) (set_conn c w)))
                = detected (trace w)).
  { intros data c. unfold sends, detected. simpl. rewrite !omap_app. simpl.
    now rewrite !app_nil_r. }
  destruct (ws_receive_json (conn w)) as [[[data|e]|i] c].
  2,3:(inversion H0; subst; simpl; auto).
  destruct (Hlog data c) as (L1 & L2).
  destruct (getitem data "type") as [ty|e].
  2:{ inversion H0; subst. simpl. auto. }
  destruct (eq_str ty "frame").
  2:{ inversion H0; subst. simpl. auto. }
  destruct (getitem data "frame") as [frame_data|e].
  2:{ inversion H0; subst. simpl. auto. }
  destruct (fromhex frame_data) as [raw|e].
  2:{ inversion H0; subst. simpl. auto. }
  destruct (imdecode raw) as [image|e].
  2:{ inversion H0; subst. simpl. auto. }
  simpl in H0. rewrite Hd in H0. inversion H0; subst. simpl. auto.
Qed.

(** X13.  The endpoint does not check that a detector is loaded, and the
    loop never loads one: while the handle is absent no frame is ever
    detected and nothing is ever sent, however long the loop runs and
    whatever arrives. *)
Theorem no_detector_no_replies (fuel : nat) : forall w : World,
  detector w = None ->
  detector (snd (loop fuel w)) = None
  /\ sends (trace (snd (loop fuel w))) = sends (trace w)
  /\ detected (trace (snd (loop fuel w))) = detected (trace w).
Proof.
  induction fuel as [|n IH]; intros w Hd; simpl; [auto|].
  destruct (turn w) as [[[[]|e]|i] w1] eqn:Hturn;
    apply (ws_iteration_without_detector w _ w1 Hd) in Hturn
      as (Hd1 & Hs1 & Hdet1).
  - destruct (IH w1 Hd1) as (H1 & H2 & H3). repeat split; congruence.
  - simpl. auto.
  - simpl. auto.
Qed.

Lemma rounds_counts (tr : list (@Event Frame Detection)) :
  rounds imdecode tr ->
  length (sends tr) <= length (detected tr)
  /\ length (detected tr) <= Datatypes.S (length (sends tr))
  /\ length (detected tr) <= length (received tr).
Proof.
  induction 1 as [|data0 ty tr Hty Hkind Hr IH
                  |data0 image results tr Hframe Hpay Hr IH
                  |data0|data0 image result]; simpl; try lia.
  destruct result; simpl; lia.
Qed.

Lemma receive_loop_reads (fuel : nat) : forall w : World,
  exists tr,
    trace (snd (loop fuel w)) = trace w ++ tr
    /\ length (received tr) <= fuel.
Proof.
  induction fuel as [|n IH]; intros w; simpl.
  - exists []. rewrite app_nil_r. simpl. split; [reflexivity|lia].
  - destruct (turn w) as [[[[]|e]|i] w1] eqn:Hturn;
      apply ws_iteration_trace in Hturn as (_ & tr1 & Htr1 & Hshape).
    + destruct (IH w1) as (tr' & Htr' & Hlen).
      exists (tr1 ++ tr'). rewrite Htr', Htr1, <- app_assoc.
      split; [reflexivity|]. unfold received in *. rewrite omap_app.
      rewrite length_app.
      destruct Hshape as [(data & ty & -> & _)
                         |(data & image & results & -> & _)]; simpl; lia.
    + simpl. exists tr1. split; [exact Htr1|].
      destruct Hshape as [->|[(data & ->)|(data & image & result & ->)]];
        simpl; lia.
    + simpl. exists tr1. split; [exact Htr1|].
      destruct Hshape as [->|[(data & ->)|(data & image & result & ->)]];
        simpl; lia.
Qed.

(** X14.  Counting what a session does: in [fuel] turns of the loop at
    most [fuel] messages are read; the Detector returns for at most as
    many frames as messages were read; and the replies sent number as many
    as the Detector's results, or one fewer when the last send failed.
    The endpoint never sends a message it was not asked for. *)
Theorem replies_never_exceed_requests (fuel : nat) (w : World) :
  exists tr,
    trace (snd (loop fuel w)) = trace w ++ tr
    /\ length (received tr) <= fuel
    /\ length (detected tr) <= length (received tr)
    /\ length (sends tr) <= length (detected tr)
    /\ length (detected tr) <= Datatypes.S (length (sends tr)).
Proof.
  destruct (receive_loop_rounds fuel w) as (_ & tr & Htr & Hrounds).
  destruct (receive_loop_reads fuel w) as (tr' & Htr' & Hlen).
  assert (tr' = tr) by (apply (app_inv_head (trace w)); congruence).
  subst tr'. apply rounds_counts in Hrounds as (H1 & H2 & H3).
  exists tr. repeat split; assumption.
Qed.

Lemma ws_iteration_frame (w : World) r w' :
  turn w = (r, w') ->
  disk w' = disk w /\ segmenter w' = segmenter w
  /\ (is_Some (detector w') <-> is_Some (detector w)).
Proof.
  unfold ws_iteration, receive_json, send_json, detector_detect. run.
  intros H0.
  destruct (ws_receive_json (conn w)) as [[[data|e]|i] c];
    [|inversion H0; subst; simpl; tauto..].
  destruct (getitem data "type") as [ty|e];
    [|inversion H0; subst; simpl; tauto].
  destruct (eq_str ty "frame"); [|inversion H0; subst; simpl; tauto].
  destruct (getitem data "frame") as [frame_data|e];
    [|inversion H0; subst; simpl; tauto].
  destruct (fromhex frame_data) as [raw|e];
    [|inversion H0; subst; simpl; tauto].
  destruct (imdecode raw) as [image|e];
    [|inversion H0; subst; simpl; tauto].
  simpl in H0. destruct (detector w) as [d|] eqn:Hd;
    [|inversion H0; subst; simpl; rewrite Hd; tauto].
  destruct (detect d image) as [[results|e] d'];
    [|inversion H0; subst; simpl; repeat split; intros; eauto].
  simpl in H0.
  destruct (ws_send_json (response_of results) c) as [[[[]|e]|i] c'];
    inversion H0; subst; simpl; repeat split; intros; eauto.
Qed.

Lemma receive_loop_keeps (fuel : nat) : forall w : World,
  active_connections (snd (loop fuel w)) = active_connections w.
Proof. intros w. apply receive_loop_rounds. Qed.

(** X15.  A streaming session works on the socket and the detector only:
    however long its loop runs it leaves the files on disk, the segmenter
    and the manager's set of sessions as they were, and a loaded detector
    stays loaded. *)
Theorem receive_loop_keeps_process_state (fuel : nat) : forall w : World,
  disk (snd (loop fuel w)) = disk w
  /\ segmenter (snd (loop fuel w)) = segmenter w
  /\ active_connections (snd (loop fuel w)) = active_connections w
  /\ (is_Some (detector (snd (loop fuel w))) <-> is_Some (detector w)).
Proof.
  induction fuel as [|n IH]; intros w; simpl; [tauto|].
  destruct (turn w) as [[[[]|e]|i] w1] eqn:Hturn;
    pose proof (ws_iteration_frame _ _ _ Hturn) as (F1 & F2 & F3);
    apply ws_iteration_trace in Hturn as (F4 & _).
  - destruct (IH w1) as (H1 & H2 & H3 & H4).
    repeat split; try congruence; tauto.
  - simpl. tauto.
  - simpl. tauto.
Qed.

(** X16.  A session never disturbs the others.  Whether the handshake is
    refused, the session is still open or it has ended, the manager's
    active set differs from the one before the call in this session's
    entry at most. *)
Theorem other_sessions_unaffected (fuel ws ws' : nat) (w : World) :
  ws' <> ws ->
  ws' ∈ active_connections
          (snd (websocket_endpoint detect imdecode ws_accept ws_receive_json
                  ws_send_json fuel ws w))
  <-> ws' ∈ active_connections w.
Proof.
  intros Hne. unfold websocket_endpoint, manager_connect, manager_disconnect.
  run. destruct (ws_accept (conn w)) as [[[[]|e]|i] c0]; [|reflexivity..].
  match goal with
  | |- context [loop fuel ?w0] =>
      pose proof (receive_loop_keeps fuel w0) as Hact;
      destruct (loop fuel w0) as [[[e|]|i] w1]
  end; simpl in *; rewrite ?elem_of_difference, Hact, elem_of_union,
    elem_of_singleton; tauto.
Qed.

(** *** Startup and shutdown *)

(** X17.  When both constructors succeed the startup hook completes with
    both handles set; from then on [/health] reports both engines as
    loaded and none of the three HTTP handlers answers 503, whatever is
    uploaded. *)
Theorem startup_then_ready (w : World) (d : D) (s : S) :
  YOLODetector "yolo11n" = Return d ->
  SAM3DSegmenter = Return s ->
  let w' := set_segmenter (Some s) (set_detector (Some d) w) in
  startup_event YOLODetector SAM3DSegmenter w = (Return tt, w')
  /\ fst (health_check w')
     = Return {| status := "healthy"; detector_loaded := true;
                 segmenter_loaded := true |}
  /\ forall file seg,
       fst (detect_fruits detect imdecode shape file w')
       <> Raise (HTTPException 503 "Detector not loaded")
       /\ fst (segment_fruits segment imdecode file w')
          <> Raise (HTTPException 503 "Segmenter not loaded")
       /\ fst (process_video detect demux writable mux ObjectCounter file
                 seg w')
          <> Raise (HTTPException 503 "Detector not loaded").
Proof.
  intros Hd Hs w'. split; [|split].
  - unfold startup_event. run. now rewrite Hd, Hs.
  - reflexivity.
  - intros file seg. repeat split; intros H.
    + apply (proj1 (detect_fruits_run file w')) in H. discriminate.
    + apply (proj1 (segment_fruits_run file w')) in H. discriminate.
    + apply (proj1 (process_video_run file seg w')) in H. discriminate.
Qed.

Lemma shutdown_event_frame (w : World) :
  let run := shutdown_event detector_cleanup segmenter_cleanup w in
  (is_Some (detector (snd run)) <-> is_Some (detector w))
  /\ (is_Some (segmenter (snd run)) <-> is_Some (segmenter w))
  /\ disk (snd run) = disk w
  /\ active_connections (snd run) = active_connections w
  /\ trace (snd run) = trace w.
Proof.
  unfold shutdown_event, call_detector_cleanup, call_segmenter_cleanup. run.
  destruct (detector w) as [d|] eqn:Hd; simpl.
  - destruct (detector_cleanup d) as [[[]|e] d']; simpl.
    + destruct (segmenter w) as [s|] eqn:Hs; simpl.
      * destruct (segmenter_cleanup s) as [r s']; simpl.
        repeat split; intros; eauto.
      * rewrite ?Hd, ?Hs. repeat split; intros; eauto.
    + rewrite ?Hd, ?Hs. repeat split; intros; eauto.
  - destruct (segmenter w) as [s|] eqn:Hs; simpl.
    + destruct (segmenter_cleanup s) as [r s']; simpl.
      rewrite ?Hd, ?Hs. repeat split; intros; eauto.
    + rewrite ?Hd, ?Hs. repeat split; intros; eauto.
Qed.

(** X18.  Shutdown cleans up but does not unload: after it, whether it
    completed or raised, each handle is set exactly when it was set
    before, so [/health] answers as before; files, sessions and trace are
    untouched; and with nothing loaded the hook does nothing at all. *)
Theorem shutdown_keeps_handles (w : World) :
  let run := shutdown_event detector_cleanup segmenter_cleanup w in
  (is_Some (detector (snd run)) <-> is_Some (detector w))
  /\ (is_Some (segmenter (snd run)) <-> is_Some (segmenter w))
  /\ fst (health_check (snd run)) = fst (health_check w)
  /\ disk (snd run) = disk w
  /\ active_connections (snd run) = active_connections w
  /\ trace (snd run) = trace w
  /\ (detector w = None -> segmenter w = None -> run = (Return tt, w)).
Proof.
  intros run.
  destruct (shutdown_event_frame w) as (H1 & H2 & H3 & H4 & H5).
  fold run in H1, H2, H3, H4, H5.
  repeat split; try tauto.
  - rewrite !health_check_reports. simpl.
    now rewrite (bool_decide_ext _ _ H1), (bool_decide_ext _ _ H2).
  - intros Hd Hs. unfold run, shutdown_event. run. now rewrite Hd, Hs.
Qed.

(** X19.  Shutdown cleans the detector first.  If that cleanup raises,
    the hook raises the same exception and the segmenter's cleanup is not
    run; if it returns, the hook ends as the segmenter's cleanup ends. *)
Theorem shutdown_order (w : World) (d d' : D) (s : S) :
  detector w = Some d ->
  segmenter w = Some s ->
  (forall e, detector_cleanup d = (Raise e, d') ->
     shutdown_event detector_cleanup segmenter_cleanup w
     = (Raise e, set_detector (Some d') w))
  /\ (forall r s', detector_cleanup d = (Return tt, d') ->
        segmenter_cleanup s = (r, s') ->
        shutdown_event detector_cleanup segmenter_cleanup w
        = (r, set_segmenter (Some s') (set_detector (Some d') w))).
Proof.
  intros Hd Hs.
  unfold shutdown_event, call_detector_cleanup, call_segmenter_cleanup. run.
  split.
  - intros e He. now rewrite Hd, He.
  - intros r s' Hcd Hcs. rewrite Hd, Hcd. simpl. now rewrite Hs, Hcs.
Qed.

(** X20.  A frame message whose payload cannot be obtained (no ["frame"]
    field, a value that is not a string, text that is not hexadecimal, or
    bytes on which the decoder raises) ends the loop with that exception:
    the Detector is not called and nothing is sent. *)
Theorem malformed_frame_ends_loop (w : World) (data : Json) (c : Conn)
    (e : Exception) (n : nat) :
  ws_receive_json (conn w) = (Return data, c) ->
  is_frame data ->
  frame_payload imdecode data = Raise e ->
  loop (Datatypes.S n) w = (Some e, log (EvRecv data) (set_conn c w))
  /\ detector (snd (loop (Datatypes.S n) w)) = detector w
  /\ trace (snd (loop (Datatypes.S n) w)) = trace w ++ [EvRecv data].
Proof.
  intros Hrecv Hframe Hpay.
  assert (Hloop : loop (Datatypes.S n) w
                  = (Some e, log (EvRecv data) (set_conn c w))).
  { simpl. now rewrite (malformed_payload_raises w data c e Hrecv Hframe Hpay). }
  rewrite Hloop. repeat split.
Qed.


End Properties.

(* ================================================================== *)
(** ** The handlers at work on the concrete deployment *)
(* ================================================================== *)

Import Scenario.

(** C1: the code departs from it.  The detector raises on the first frame
    of [clip]; the handler answers 400 and the upload is still on disk
    under its temporary path when the handler has returned. *)
Theorem temp_file_left_after_engine_failure :
  let run :=
    process_video detect_failing demux writable mux ObjectCounter clip false
      (ready []) in
  fst run = Raise (HTTPException 400 "inference failed")
  /\ disk (snd run) !! temp_path_of clip = Some (contents clip).
Proof. vm_compute. split; reflexivity. Qed.

(** The same upload with a working detector: the temporary file is gone
    after the handler has returned. *)
Example temp_file_removed_on_success :
  let run :=
    process_video detect demux writable mux ObjectCounter clip false
      (ready []) in
  fst run = Return clip_response
  /\ disk (snd run) !! temp_path_of clip = None.
Proof. vm_compute. split; reflexivity. Qed.

(** [video_totals] on [clip]. *)
Lemma video_totals_witness :
  let run :=
    process_video detect demux writable mux ObjectCounter clip false
      (ready []) in
  run = (Return clip_response, snd run)
  /\ exists d (w1 w2 : Process),
       let read := frames_read (demux (contents clip)) in
       let rs := detector_returns detect d read in
       detector (ready []) = Some d
       /\ detector w1 = Some d
       /\ length rs = length read
       /\ total_frames clip_response = Z.of_nat (length read)
       /\ total_detections clip_response = Z.of_nat (detection_count rs)
       /\ video_loop detect read 0 [] w1
          = (Return (total_frames clip_response,
                     map snd (indexed_detections 0 rs)), w2)
       /\ StronglySorted le (map fst (indexed_detections 0 rs))
       /\ trace (snd run)
          = trace (ready [])
            ++ EvVideoWriter (output_file clip_response) (fps clip_response)
                 (resolution clip_response)
            :: zip_with (fun f r => EvDetect (Some f) (Return r)) read rs.
Proof.
  intros run.
  assert (H : run = (Return clip_response, snd run))
    by (vm_compute; reflexivity).
  split; [exact H|].
  exact (video_totals detect demux writable mux ObjectCounter clip false
           (ready []) clip_response (snd run) H).
Defined.

(** [reported_rate_and_size_truncate] on [clip], whose container says
    29.97 frames per second: the response says 29. *)
Lemma reported_rate_and_size_truncate_witness :
  let run :=
    process_video detect demux writable mux ObjectCounter clip false
      (ready []) in
  run = (Return clip_response, snd run)
  /\ int ntsc_rate = Return 29%Z
  /\ truncation_of ntsc_rate 29
  /\ truncation_of (Finite 640 0) 640
  /\ truncation_of (Finite 480 0) 480
  /\ exists detections_seen,
       trace (snd run)
       = trace (ready [])
         ++ EvVideoWriter "output_a.mp4" 29 (640, 480)%Z :: detections_seen.
Proof.
  intros run.
  assert (H : run = (Return clip_response, snd run))
    by (vm_compute; reflexivity).
  split; [exact H|].
  exact (reported_rate_and_size_truncate detect demux writable mux
           ObjectCounter clip false (ready []) clip_response (snd run) H).
Defined.

(** [unavailable_while_not_ready] on a process with nothing loaded. *)
Lemma unavailable_while_not_ready_witness :
  (detector (cold []) = None
   /\ detect_fruits detect imdecode shape garbage (cold [])
      = (Raise (HTTPException 503 "Detector not loaded"), cold []))
  /\ (segmenter (cold []) = None
      /\ segment_fruits segment imdecode picture (cold [])
         = (Raise (HTTPException 503 "Segmenter not loaded"), cold [])).
Proof.
  split; (split; [reflexivity|]).
  - apply (unavailable_while_not_ready detect segment imdecode shape
             garbage (cold [])). reflexivity.
  - apply (unavailable_while_not_ready detect segment imdecode shape
             picture (cold [])). reflexivity.
Defined.

Lemma garbage_is_no_image :
  forall f, imdecode (contents garbage) <> Return (Some f).
Proof. intros f. vm_compute. discriminate. Defined.

(** C4 fails as stated: the bytes of [garbage] are no image, the segmenter
    answers "no objects" for a missing image, and [/segment] answers with
    a success response. *)
Lemma segment_accepts_undecodable_bytes :
  (forall f, imdecode (contents garbage) <> Return (Some f))
  /\ fst (segment_fruits segment imdecode garbage (ready []))
     = Return {| sr_success := true; sr_masks := []; sr_num_objects := 0;
                 sr_processing_time_ms := Finite 0 0 |}.
Proof. split; [exact garbage_is_no_image|reflexivity]. Qed.

(** [undecodable_image_responses] on [garbage], with a segmenter that
    rejects a missing image. *)
Lemma undecodable_image_responses_witness :
  (forall f, imdecode (contents garbage) <> Return (Some f))
  /\ (exists msg w',
         detect_fruits detect imdecode shape garbage (ready [])
         = (Raise (HTTPException 400 msg), w'))
  /\ (exists msg w',
         segment_fruits segment_strict imdecode garbage (ready [])
         = (Raise (HTTPException 400 msg), w')).
Proof.
  split; [exact garbage_is_no_image|].
  destruct (undecodable_image_responses detect segment_strict imdecode shape
              garbage (ready []) garbage_is_no_image) as (Hd & Hs & _).
  split.
  - exact (Hd 0 eq_refl).
  - apply (Hs 0 eq_refl). intros _. now exists (Error "ValueError" "image is None"), 0.
Defined.

(** C5 fails as stated: the detector's weights are missing and the startup
    hook raises instead of completing. *)
Lemma startup_raises_when_detector_fails :
  fst (startup_event YOLODetector_missing_weights SAM3DSegmenter (cold []))
  = Raise (Error "FileNotFoundError" "yolo11n.pt")
  /\ fst (startup_event YOLODetector_missing_weights SAM3DSegmenter (cold []))
     <> Return tt.
Proof. split; [reflexivity|discriminate]. Qed.

(** [startup_failure_propagates] on a fresh process, once with the
    detector failing and once with the segmenter failing. *)
Lemma startup_failure_propagates_witness :
  (detector (cold []) = None /\ segmenter (cold []) = None)
  /\ (startup_event YOLODetector_missing_weights SAM3DSegmenter (cold [])
      = (Raise (Error "FileNotFoundError" "yolo11n.pt"), cold [])
      /\ fst (detect_fruits detect imdecode shape picture (cold []))
         = Raise (HTTPException 503 "Detector not loaded"))
  /\ (startup_event YOLODetector SAM3DSegmenter_out_of_memory (cold [])
      = (Raise (Error "RuntimeError" "out of memory"),
         set_detector (Some 0) (cold []))
      /\ fst (segment_fruits segment imdecode picture
                (set_detector (Some 0) (cold [])))
         = Raise (HTTPException 503 "Segmenter not loaded")).
Proof.
  split; [split; reflexivity|]. split.
  - destruct (startup_failure_propagates YOLODetector_missing_weights
                SAM3DSegmenter detect segment imdecode shape (cold [])
                picture eq_refl eq_refl) as (H & _).
    destruct (H _ eq_refl) as (Hs & _ & Hd & _). now split.
  - destruct (startup_failure_propagates YOLODetector
                SAM3DSegmenter_out_of_memory detect segment imdecode shape
                (cold []) picture eq_refl eq_refl) as (_ & H).
    destruct (H 0 _ eq_refl eq_refl) as (Hs & _ & Hseg). now split.
Defined.



(** [other_kinds_are_skipped] on a session whose first message is a
    ping, and on one whose first message carries no kind. *)
Lemma other_kinds_are_skipped_witness :
  let w := ready script in
  let w' := log (EvRecv ping) (set_conn [untyped; ping] w) in
  let v := ready [untyped; ping] in
  let v' := log (EvRecv untyped) (set_conn [ping] v) in
  (ws_receive_json (conn w) = (Return ping, [untyped; ping])
   /\ getitem ping "type" = Return (JStr "ping")
   /\ JStr "ping" <> JStr "frame"
   /\ ws_receive_json (conn v) = (Return untyped, [ping])
   /\ getitem untyped "type" = Raise (Error "KeyError" "'type'"))
  /\ (ws_iteration detect imdecode ws_receive_json ws_send_json w
      = (Return tt, w')
      /\ (forall n,
            receive_loop detect imdecode ws_receive_json ws_send_json
              (Datatypes.S n) w
            = receive_loop detect imdecode ws_receive_json ws_send_json n w')
      /\ active_connections w' = active_connections w
      /\ trace w' = trace w ++ [EvRecv ping]
      /\ sends (trace w') = sends (trace w))
  /\ (ws_iteration detect imdecode ws_receive_json ws_send_json v
      = (Raise (Error "KeyError" "'type'"), v')
      /\ forall n,
           receive_loop detect imdecode ws_receive_json ws_send_json
             (Datatypes.S n) v
           = (Some (Error "KeyError" "'type'"), v')).
Proof.
  intros w w' v v'.
  assert (H1 : ws_receive_json (conn w) = (Return ping, [untyped; ping]))
    by reflexivity.
  assert (H2 : getitem ping "type" = Return (JStr "ping"))
    by (vm_compute; reflexivity).
  assert (H3 : JStr "ping" <> JStr "frame") by discriminate.
  assert (H4 : ws_receive_json (conn v) = (Return untyped, [ping]))
    by reflexivity.
  assert (H5 : getitem untyped "type" = Raise (Error "KeyError" "'type'"))
    by (vm_compute; reflexivity).
  split; [auto 6|]. split.
  - exact (proj1 (other_kinds_are_skipped detect imdecode ws_receive_json
                    ws_send_json w ping [untyped; ping] H1)
             (JStr "ping") H2 H3).
  - exact (proj2 (other_kinds_are_skipped detect imdecode ws_receive_json
                    ws_send_json v untyped [ping] H4)
             (Error "KeyError" "'type'") H5).
Defined.

(** C6 fails as stated: a message that carries no ["type"] field is of no
    kind, so not of kind "frame"; the session that receives it is ended
    and deregistered, and the ping that follows it is never read. *)
Lemma message_without_kind_ends_session :
  let run :=
    websocket_endpoint detect imdecode ws_accept ws_receive_json
      ws_send_json 5 7 (ready [untyped; ping]) in
  (~ is_frame untyped)
  /\ fst run = Return Closed
  /\ (7 ∉ active_connections (snd run))
  /\ conn (snd run) = [ping]
  /\ received (trace (snd run)) = [untyped].
Proof.
  intros run. split; [|split; [|split; [|split]]].
  - intros (ty & Hty & _). vm_compute in Hty. discriminate.
  - reflexivity.
  - vm_compute. discriminate.
  - reflexivity.
  - reflexivity.
Qed.




(** A session of two frames, a ping and a hang-up, in full: each frame is
    answered before the next message is read. *)
Example two_frames_in_order :
  map is_recv
    (trace (snd (websocket_endpoint detect imdecode ws_accept
                   ws_receive_json ws_send_json 10 7
                   (ready [frame_message "8950"; ping;
                           frame_message "89 50 4e"]))))
  = [true; false; false; true; true; false; false; false]
  /\ sends
       (trace (snd (websocket_endpoint detect imdecode ws_accept
                      ws_receive_json ws_send_json 10 7
                      (ready [frame_message "8950"; ping;
                              frame_message "89 50 4e"]))))
     = [ {| type := "detection_results"; ws_detections := [0; 1];
            ws_processing_time_ms := Finite 3 0 |};
         {| type := "detection_results"; ws_detections := [0; 1; 2];
            ws_processing_time_ms := Finite 3 0 |} ].
Proof. vm_compute. split; reflexivity. Qed.

(* ------------------------------------------------------------------ *)
(** *** The further properties at work *)
(* ------------------------------------------------------------------ *)

(** [detect_fruits_outcomes] on a process with nothing loaded and on one
    that answers for [picture]. *)
Lemma detect_fruits_outcomes_witness :
  let resp :=
    {| dr_success := true; dr_detections := [0; 1; 2; 3];
       dr_image_shape := (640, 480)%Z;
       dr_processing_time_ms := Finite 3 0 |} in
  (detector (cold []) = None
   /\ fst (detect_fruits detect imdecode shape picture (ready []))
      = Return resp)
  /\ fst (detect_fruits detect imdecode shape picture (cold []))
     = Raise (HTTPException 503 "Detector not loaded")
  /\ dr_success resp = true.
Proof.
  intros resp.
  assert (H1 : detector (cold []) = None) by reflexivity.
  assert (H2 : fst (detect_fruits detect imdecode shape picture (ready []))
               = Return resp) by reflexivity.
  split; [auto|]. split.
  - exact (proj1 (proj1 (detect_fruits_outcomes detect imdecode shape picture
                           (cold []))) H1).
  - exact (proj1 (proj2 (proj2 (detect_fruits_outcomes detect imdecode shape
                                  picture (ready [])))) resp H2).
Defined.

(** [segment_fruits_outcomes] on a process with nothing loaded and on one
    that answers for [picture]. *)
Lemma segment_fruits_outcomes_witness :
  let resp :=
    {| sr_success := true; sr_masks := [0; 1; 2; 3]; sr_num_objects := 4;
       sr_processing_time_ms := Finite 5 0 |} in
  (segmenter (cold []) = None
   /\ fst (segment_fruits segment imdecode picture (ready [])) = Return resp)
  /\ fst (segment_fruits segment imdecode picture (cold []))
     = Raise (HTTPException 503 "Segmenter not loaded")
  /\ sr_success resp = true.
Proof.
  intros resp.
  assert (H1 : segmenter (cold []) = None) by reflexivity.
  assert (H2 : fst (segment_fruits segment imdecode picture (ready []))
               = Return resp) by reflexivity.
  split; [auto|]. split.
  - exact (proj1 (proj1 (segment_fruits_outcomes segment imdecode picture
                           (cold []))) H1).
  - exact (proj1 (proj2 (proj2 (segment_fruits_outcomes segment imdecode
                                  picture (ready [])))) resp H2).
Defined.

(** [process_video_outcomes] on a process with nothing loaded and on one
    that answers for [clip]. *)
Lemma process_video_outcomes_witness :
  (detector (cold []) = None
   /\ fst (process_video detect demux writable mux ObjectCounter clip false
             (ready []))
      = Return clip_response)
  /\ fst (process_video detect demux writable mux ObjectCounter clip false
            (cold []))
     = Raise (HTTPException 503 "Detector not loaded")
  /\ success clip_response = true
  /\ output_file clip_response = output_path_of clip.
Proof.
  assert (H1 : detector (cold []) = None) by reflexivity.
  assert (H2 : fst (process_video detect demux writable mux ObjectCounter
                      clip false (ready []))
               = Return clip_response) by (vm_compute; reflexivity).
  split; [auto|]. split.
  - exact (proj1 (proj1 (process_video_outcomes detect demux writable mux
                           ObjectCounter clip false (cold []))) H1).
  - exact (proj1 (proj2 (proj2 (process_video_outcomes detect demux writable
                                  mux ObjectCounter clip false (ready []))))
             clip_response H2).
Defined.

(** [detect_fruits_success] on [picture]. *)
Lemma detect_fruits_success_witness :
  let results :=
    {| detections := [0; 1; 2; 3]; processing_time := Finite 3 0 |} in
  (detector (ready []) = Some 0
   /\ imdecode (contents picture) = Return (Some 4)
   /\ detect 0 (Some 4) = (Return results, 1))
  /\ detect_fruits detect imdecode shape picture (ready [])
     = (Return {| dr_success := true;
                  dr_detections := detections results;
                  dr_image_shape := (snd (shape 4), fst (shape 4));
                  dr_processing_time_ms := processing_time results |},
        log (EvDetect (Some 4) (Return results))
          (set_detector (Some 1) (ready []))).
Proof.
  intros results. split; [repeat split|].
  apply (detect_fruits_success detect imdecode shape picture (ready [])
           0 1 4 results); reflexivity.
Defined.

(** [detect_fruits_runs_detector_on_missing_image] on [garbage], with a
    detector that answers for a missing image. *)
Lemma detect_fruits_runs_detector_on_missing_image_witness :
  let results := {| detections := []; processing_time := Finite 0 0 |} in
  (detector (ready []) = Some 0
   /\ imdecode (contents garbage) = Return None
   /\ detect_lenient 0 None = (Return results, 1))
  /\ detect_fruits detect_lenient imdecode shape garbage (ready [])
     = (Raise (HTTPException 400
                 "'NoneType' object has no attribute 'shape'"),
        log (EvDetect None (Return results))
          (set_detector (Some 1) (ready []))).
Proof.
  intros results. split; [repeat split|].
  apply (detect_fruits_runs_detector_on_missing_image detect_lenient
           imdecode shape garbage (ready []) 0 1 results); reflexivity.
Defined.

(** [temp_file_fate] on [clip], twice.  On a disk that fills up after the
    first byte the handler answers 400 with the system's message and the
    temporary file stays behind holding that byte.  With the upload stored
    and the detector failing, the handler answers 400 and the file stays
    behind holding the upload. *)
Lemma temp_file_fate_witness :
  let full :=
    process_video detect demux read_only mux ObjectCounter clip false
      (ready []) in
  let run :=
    process_video detect_failing demux writable mux ObjectCounter clip false
      (ready []) in
  (detector (ready []) = Some 0
   /\ read_only (temp_path_of clip) = false
   /\ write_failure (temp_path_of clip) (contents clip)
      = (Error "OSError"
           "[Errno 28] No space left on device: 'temp_a.mp4'", Some 1)
   /\ writable (temp_path_of clip) = true
   /\ fst run = Raise (HTTPException 400 "inference failed"))
  /\ (fst full
      = Raise (HTTPException 400
                 "[Errno 28] No space left on device: 'temp_a.mp4'")
      /\ disk (snd full) !! temp_path_of clip = Some [x02])
  /\ disk (snd run) !! temp_path_of clip = Some (contents clip).
Proof.
  intros full run.
  assert (H1 : detector (ready []) = Some 0) by reflexivity.
  assert (H2 : read_only (temp_path_of clip) = false) by reflexivity.
  assert (H3 : write_failure (temp_path_of clip) (contents clip)
               = (Error "OSError"
                    "[Errno 28] No space left on device: 'temp_a.mp4'",
                  Some 1)) by (vm_compute; reflexivity).
  assert (H4 : writable (temp_path_of clip) = true) by reflexivity.
  assert (H5 : fst run = Raise (HTTPException 400 "inference failed"))
    by (vm_compute; reflexivity).
  split; [auto 6|]. split.
  - exact (proj1 (temp_file_fate detect demux read_only mux ObjectCounter
                    clip false (ready []) 0 H1) H2).
  - exact (proj2 (proj2 (temp_file_fate detect_failing demux writable mux
                           ObjectCounter clip false (ready []) 0 H1) H4)
             _ H5).
Defined.

(** [process_video_touches_two_paths] on a process that has a file of its
    own. *)
Lemma process_video_touches_two_paths_witness :
  ("notes.txt" <> temp_path_of clip /\ "notes.txt" <> output_path_of clip)
  /\ disk (snd (process_video detect demux writable mux ObjectCounter clip
                  false stocked)) !! "notes.txt"
     = disk stocked !! "notes.txt".
Proof.
  assert (H1 : "notes.txt" <> temp_path_of clip) by discriminate.
  assert (H2 : "notes.txt" <> output_path_of clip) by discriminate.
  split; [split; assumption|].
  exact (process_video_touches_two_paths detect demux writable mux
           ObjectCounter clip false stocked "notes.txt" H1 H2).
Defined.

(** [unopened_container_reports_success] with a codec that opens
    nothing. *)
Lemma unopened_container_reports_success_witness :
  let run :=
    process_video detect demux_unreadable writable mux ObjectCounter garbage
      false (ready []) in
  (detector (ready []) = Some 0
   /\ writable (temp_path_of garbage) = true
   /\ isOpened (demux_unreadable (contents garbage)) = false
   /\ int (CAP_PROP_FPS (demux_unreadable (contents garbage))) = Return 0%Z
   /\ int (CAP_PROP_FRAME_WIDTH (demux_unreadable (contents garbage)))
      = Return 0%Z
   /\ int (CAP_PROP_FRAME_HEIGHT (demux_unreadable (contents garbage)))
      = Return 0%Z
   /\ ObjectCounter = Return tt)
  /\ fst run = Return {| success := true;
                         output_file := output_path_of garbage;
                         total_frames := 0;
                         total_detections := 0;
                         fps := 0;
                         resolution := (0, 0)%Z |}
  /\ detector (snd run) = Some 0
  /\ trace (snd run)
     = trace (ready [])
       ++ [EvVideoWriter (output_path_of garbage) 0 (0, 0)%Z].
Proof.
  intros run. split; [repeat split|].
  exact (unopened_container_reports_success detect demux_unreadable writable
           mux ObjectCounter garbage false (ready []) 0 0 0 0
           eq_refl eq_refl eq_refl eq_refl eq_refl eq_refl eq_refl).
Defined.

(** [video_loop_stops_at_first_failure] on the frames of [clip], whose
    second frame is empty: the third frame never reaches the detector. *)
Lemma video_loop_stops_at_first_failure_witness :
  let pending := frames (demux (contents clip)) in
  let run := video_loop detect_picky pending 0 [] (ready []) in
  let rs := detector_returns detect_picky 0 pending in
  (detector (ready []) = Some 0
   /\ run = (Raise (Error "ValueError" "empty frame"), snd run))
  /\ exists frame,
       pending !! length rs = Some frame
       /\ trace (snd run)
          = trace (ready [])
            ++ zip_with (fun f r => EvDetect (Some f) (Return r))
                 (take (length rs) pending) rs
            ++ [EvDetect (Some frame)
                  (Raise (Error "ValueError" "empty frame"))].
Proof.
  intros pending run rs.
  assert (H : run = (Raise (Error "ValueError" "empty frame"), snd run))
    by (vm_compute; reflexivity).
  split; [split; [reflexivity|exact H]|].
  exact (video_loop_stops_at_first_failure detect_picky pending 0 []
           (ready []) (snd run) (Error "ValueError" "empty frame") 0
           eq_refl H).
Defined.

(** [stream_agrees_with_detect] on [picture], uploaded and streamed. *)
Lemma stream_agrees_with_detect_witness :
  let w2 := ready [encode_frame (contents picture)] in
  let resp :=
    {| dr_success := true; dr_detections := [0; 1; 2; 3];
       dr_image_shape := (640, 480)%Z;
       dr_processing_time_ms := Finite 3 0 |} in
  let w1' := snd (detect_fruits detect imdecode shape picture (ready [])) in
  let message :=
    {| type := "detection_results"; ws_detections := dr_detections resp;
       ws_processing_time_ms := dr_processing_time_ms resp |} in
  (detector (ready []) = Some 0
   /\ detector w2 = Some 0
   /\ detect_fruits detect imdecode shape picture (ready [])
      = (Return resp, w1')
   /\ ws_receive_json (conn w2)
      = (Return (encode_frame (contents picture)), [])
   /\ ws_send_json message [] = (Return tt, []))
  /\ exists w2',
       ws_iteration detect imdecode ws_receive_json ws_send_json w2
       = (Return tt, w2')
       /\ sends (trace w2') = sends (trace w2) ++ [message]
       /\ detector w2' = detector w1'.
Proof.
  intros w2 resp w1' message.
  assert (H3 : detect_fruits detect imdecode shape picture (ready [])
               = (Return resp, w1')) by reflexivity.
  split; [repeat split|].
  exact (stream_agrees_with_detect detect imdecode shape ws_receive_json
           ws_send_json picture (ready []) w1' w2 0 resp [] []
           eq_refl eq_refl H3 eq_refl eq_refl).
Defined.

(** [message_without_kind_ends_loop] on a session whose first message has
    no ["type"] field. *)
Lemma message_without_kind_ends_loop_witness :
  let w := ready [untyped; ping] in
  (ws_receive_json (conn w) = (Return untyped, [ping])
   /\ (forall o, untyped = JObj o -> o !! "type" = None))
  /\ exists e,
       getitem untyped "type" = Raise e
       /\ receive_loop detect imdecode ws_receive_json ws_send_json 3 w
          = (Some e, log (EvRecv untyped) (set_conn [ping] w)).
Proof.
  intros w.
  assert (H2 : forall o, untyped = JObj o -> o !! "type" = None).
  { intros o Ho. inversion Ho; subst. vm_compute. reflexivity. }
  split; [split; [reflexivity|exact H2]|].
  exact (message_without_kind_ends_loop detect imdecode ws_receive_json
           ws_send_json w untyped [ping] 2 eq_refl H2).
Defined.

(** [no_detector_no_replies] on a process with nothing loaded that is sent
    a ping and a frame. *)
Lemma no_detector_no_replies_witness :
  let w := cold [ping; frame_message "8950"; ping] in
  let w' :=
    snd (receive_loop detect imdecode ws_receive_json ws_send_json 5 w) in
  detector w = None
  /\ detector w' = None
  /\ sends (trace w') = sends (trace w)
  /\ detected (trace w') = detected (trace w).
Proof.
  intros w w'. split; [reflexivity|].
  exact (no_detector_no_replies detect imdecode ws_receive_json ws_send_json
           5 w eq_refl).
Defined.

(** [other_sessions_unaffected]: session 3 is registered on [stocked] and
    stays so while session 7 opens and ends. *)
Lemma other_sessions_unaffected_witness :
  3 <> 7
  /\ (3 ∈ active_connections
            (snd (websocket_endpoint detect imdecode ws_accept
                    ws_receive_json ws_send_json 4 7 stocked))
      <-> 3 ∈ active_connections stocked).
Proof.
  assert (H : 3 <> 7) by lia.
  split; [exact H|].
  exact (other_sessions_unaffected detect imdecode ws_accept ws_receive_json
           ws_send_json 4 7 3 stocked H).
Defined.

(** [startup_then_ready] on a fresh process. *)
Lemma startup_then_ready_witness :
  let w' := set_segmenter (Some 0) (set_detector (Some 0) (cold [])) in
  (YOLODetector "yolo11n" = Return 0 /\ SAM3DSegmenter = Return 0)
  /\ startup_event YOLODetector SAM3DSegmenter (cold []) = (Return tt, w')
  /\ fst (health_check w')
     = Return {| status := "healthy"; detector_loaded := true;
                 segmenter_loaded := true |}
  /\ forall file seg,
       fst (detect_fruits detect imdecode shape file w')
       <> Raise (HTTPException 503 "Detector not loaded")
       /\ fst (segment_fruits segment imdecode file w')
          <> Raise (HTTPException 503 "Segmenter not loaded")
       /\ fst (process_video detect demux writable mux ObjectCounter file
                 seg w')
          <> Raise (HTTPException 503 "Detector not loaded").
Proof.
  intros w'. split; [split; reflexivity|].
  exact (startup_then_ready YOLODetector SAM3DSegmenter detect segment
           imdecode shape demux writable mux ObjectCounter (cold []) 0 0
           eq_refl eq_refl).
Defined.

(** [shutdown_order] on a warm process, once with a detector whose
    cleanup fails and once with one whose cleanup succeeds. *)
Lemma shutdown_order_witness :
  (detector (warm []) = Some 4 /\ segmenter (warm []) = Some 2)
  /\ shutdown_event detector_cleanup_failing segmenter_cleanup (warm [])
     = (Raise (Error "RuntimeError" "CUDA error"),
        set_detector (Some 4) (warm []))
  /\ shutdown_event detector_cleanup segmenter_cleanup (warm [])
     = (Return tt, set_segmenter (Some 0) (set_detector (Some 0) (warm []))).
Proof.
  split; [split; reflexivity|]. split.
  - apply (proj1 (shutdown_order detector_cleanup_failing segmenter_cleanup
                    (warm []) 4 4 2 eq_refl eq_refl)).
    reflexivity.
  - apply (proj2 (shutdown_order detector_cleanup segmenter_cleanup
                    (warm []) 4 0 2 eq_refl eq_refl)); reflexivity.
Defined.

(** [malformed_frame_ends_loop] on a frame whose payload has an odd number
    of hexadecimal digits. *)
Lemma malformed_frame_ends_loop_witness :
  let w := ready [frame_message "895"; ping] in
  let e := Error "ValueError" "non-hexadecimal number found in fromhex() arg" in
  (ws_receive_json (conn w) = (Return (frame_message "895"), [ping])
   /\ is_frame (frame_message "895")
   /\ frame_payload imdecode (frame_message "895") = Raise e)
  /\ receive_loop detect imdecode ws_receive_json ws_send_json 3 w
     = (Some e, log (EvRecv (frame_message "895")) (set_conn [ping] w))
  /\ detector
       (snd (receive_loop detect imdecode ws_receive_json ws_send_json 3 w))
     = detector w
  /\ trace
       (snd (receive_loop detect imdecode ws_receive_json ws_send_json 3 w))
     = trace w ++ [EvRecv (frame_message "895")].
Proof.
  intros w e.
  assert (H2 : is_frame (frame_message "895")).
  { exists (JStr "frame"). split; vm_compute; reflexivity. }
  assert (H3 : frame_payload imdecode (frame_message "895") = Raise e)
    by (vm_compute; reflexivity).
  split; [repeat split; assumption|].
  exact (malformed_frame_ends_loop detect imdecode ws_receive_json
           ws_send_json w (frame_message "895") [ping] e 2 eq_refl H2 H3).
Defined.

